(** * WebsiteCreator: the command-line driver and the crew wiring

    A shallow embedding of [website_creator/main.py] and
    [website_creator/crew.py].

    - Python [str] values that come from the user (the request, the website
      name) are lists of Unicode code points, so that [str.strip] and
      [str.replace] mean what they mean in CPython.  Identifiers, file names
      and keys, which are literals of the source, are [string]s.
    - The process state (environment variables, [sys.stdin], the files below
      the working directory, the clock) is a record [world]; every effectful
      function is a state transformer that also yields the list of events it
      performed and either a value or a raised exception.
    - CrewAI and the YAML loader of [CrewBase] are external: what they do is
      a parameter of the model, the record [env]. *)

From stdpp Require Import gmap strings list.
From Stdlib Require Import Ascii NArith ZArith DecimalString.

Local Open Scope list_scope.

(* ===================================================================== *)
(** ** Python strings *)
(* ===================================================================== *)

Module Str.
Local Open Scope N_scope.

(** A [str] is a sequence of code points. *)
Definition char := N.
Definition str := list char.

(** A literal of the source, as a [str]. *)
Definition lit (s : string) : str :=
  map Ascii.N_of_ascii (String.list_ascii_of_string s).

(** [c.isspace()] for one code point: CPython's [_PyUnicode_IsWhitespace]. *)
Definition isspace (c : char) : bool :=
  ((9 <=? c) && (c <=? 13)) || ((28 <=? c) && (c <=? 32))
  || (c =? 133) || (c =? 160) || (c =? 5760)
  || ((8192 <=? c) && (c <=? 8202))
  || (c =? 8232) || (c =? 8233) || (c =? 8239) || (c =? 8287)
  || (c =? 12288).

Fixpoint lstrip (s : str) : str :=
  match s with
  | [] => []
  | c :: r => if isspace c then lstrip r else s
  end.

Definition rstrip (s : str) : str := rev (lstrip (rev s)).

(** [s.strip()] *)
Definition strip (s : str) : str := rstrip (lstrip s).

Definition CR : char := 13.
Definition LF : char := 10.

(** [s.replace("\r\n", "\n")]: one scan from the left, occurrences do not
    overlap and the text already produced is not scanned again. *)
Fixpoint replace_crlf (s : str) : str :=
  match s with
  | [] => []
  | c :: r =>
      match r with
      | d :: r' =>
          if (c =? CR) && (d =? LF) then LF :: replace_crlf r'
          else c :: replace_crlf r
      | [] => [c]
      end
  end.

(** Truth value of a [str]: non-empty. *)
Definition truthy (s : str) : bool :=
  match s with [] => false | _ => true end.

(** ["\r\n" in s] *)
Fixpoint has_crlf (s : str) : bool :=
  match s with
  | [] => false
  | c :: r =>
      match r with
      | d :: _ => ((c =? CR) && (d =? LF)) || has_crlf r
      | [] => false
      end
  end.

(** The text up to the first line feed, and what follows it. *)
Fixpoint split_line (s : str) : str * str :=
  match s with
  | [] => ([], [])
  | c :: r =>
      if c =? LF then ([], r)
      else let '(l, rest) := split_line r in (c :: l, rest)
  end.

(** No white space at either end. *)
Definition trimmed (s : str) : Prop :=
  (forall c r, s = c :: r -> isspace c = false) /\
  (forall r c, s = r ++ [c] -> isspace c = false).

End Str.
Import Str.

(* ===================================================================== *)
(** ** File names *)
(* ===================================================================== *)

Module Path.
Local Open Scope string_scope.
Local Open Scope list_scope.

(** Splits at the last occurrence of [sep]: (before, after). *)
Fixpoint rsplit (sep : Ascii.ascii) (s : string) : option (string * string) :=
  match s with
  | EmptyString => None
  | String c r =>
      match rsplit sep r with
      | Some (a, b) => Some (String c a, b)
      | None => if Ascii.eqb c sep then Some (EmptyString, r) else None
      end
  end.

(** [Path(p).parent] for a relative path: ["."] when there is no slash. *)
Definition parent (p : string) : string :=
  match rsplit "/"%char p with
  | Some (d, _) => d
  | None => "."
  end.

(** [Path(p).name] *)
Definition name (p : string) : string :=
  match rsplit "/"%char p with
  | Some (_, n) => n
  | None => p
  end.

(** The extension of the last component, without its dot. *)
Definition suffix (p : string) : option string :=
  match rsplit "."%char (name p) with
  | Some (_, e) => Some e
  | None => None
  end.

(** [Path(d) / n] *)
Definition join (d n : string) : string := d +:+ "/" +:+ n.

End Path.

(* ===================================================================== *)
(** ** Values, exceptions and the process state *)
(* ===================================================================== *)

Local Open Scope string_scope.
Local Open Scope list_scope.

(** What the YAML loader can leave in [agents_config] / [tasks_config]. *)
#[warnings="-register-all"]
Inductive yaml :=
| YNull
| YBool (b : bool)
| YNum (n : Z)
| YStr (s : string)
| YList (l : list yaml)
| YDict (d : gmap string yaml).

Abbreviation dict := (gmap string yaml).

Inductive exn :=
| KeyboardInterrupt
| SystemExit (code : Z)
| EOFError
| KeyError (msg : string)
| RuntimeError (msg : string)
| TypeError (msg : string)
| FileExistsError (path : string)
| FileNotFoundError (path : string)
| NotADirectoryError (path : string)
| IsADirectoryError (path : string)
| AttributeError (name : string)
| LibraryError (cls : string) (msg : str).
(** [LibraryError] stands for any exception class of the external libraries
    that derives from [Exception]. *)

(** [isinstance(e, Exception)]: [KeyboardInterrupt] and [SystemExit] derive
    from [BaseException] only. *)
Definition is_Exception (e : exn) : bool :=
  match e with
  | KeyboardInterrupt | SystemExit _ => false
  | _ => true
  end.

(** JSON payloads.  [JErr e] is the JSON string [str(e)]; [JOpaque] is a
    value produced by the crew, kept as it is. *)
#[warnings="-register-all"]
Inductive json :=
| JBool (b : bool)
| JStr (s : str)
| JErr (e : exn)
| JOpaque (tag : Z)
| JObj (fields : list (string * json)).

(** The text of a file. *)
Inductive content :=
| JsonText (indent : Z) (ensure_ascii : bool) (payload : json)
| TaskOutput (raw : str).

Inductive node :=
| Dir
| File (c : content).

(** What the user does at the terminal when asked for a line. *)
Inductive reply :=
| Line (s : str)
| CtrlD
| CtrlC.

(** [sys.stdin]: a terminal with the replies still to come, or a pipe with
    the data not yet read. *)
Inductive stream :=
| Tty (pending : list reply)
| Pipe (data : str).

Record world := World {
  environ : gmap string string;
  stdin : option stream;
  cwd : string;
  fs : gmap string node;      (* paths relative to [cwd] *)
  year : Z;                   (* [datetime.now().year] *)
}.

Inductive message :=
| Text (s : string)
| ErrorLine (e : exn)
| JsonLine (j : json)
| ArtifactsLine (p : string)
| FileLine (p : string).

Inductive event :=
| EvPrint (to_stderr : bool) (m : message)
| EvMkdir (path : string)
| EvWrite (path : string) (c : content)
| EvWriteFailed (path : string) (e : exn)
| EvKickoff (inputs : list (string * str)).

Inductive result (A : Type) :=
| Ok (a : A)
| Raise (e : exn).
Arguments Ok {A} a.
Arguments Raise {A} e.

(** An effectful computation: from a state to a result, the new state and
    the events performed, oldest first. *)
Definition M (A : Type) : Type := world -> result A * world * list event.

Definition ret {A} (a : A) : M A := fun w => (Ok a, w, []).
Definition raise {A} (e : exn) : M A := fun w => (Raise e, w, []).

Definition bind {A B} (m : M A) (k : A -> M B) : M B :=
  fun w =>
    match m w with
    | (Ok a, w1, ev1) =>
        match k a w1 with
        | (r, w2, ev2) => (r, w2, ev1 ++ ev2)
        end
    | (Raise e, w1, ev1) => (Raise e, w1, ev1)
    end.

(** [try: m  except ...: h e]; the handler re-raises what it does not
    catch. *)
Definition try_except {A} (m : M A) (h : exn -> M A) : M A :=
  fun w =>
    match m w with
    | (Ok a, w1, ev1) => (Ok a, w1, ev1)
    | (Raise e, w1, ev1) =>
        match h e w1 with
        | (r, w2, ev2) => (r, w2, ev1 ++ ev2)
        end
    end.

Definition lift {A} (r : result A) : M A :=
  match r with
  | Ok a => ret a
  | Raise e => raise e
  end.

Notation "'let*' x := m 'in' k" := (bind m (fun x => k))
  (at level 10, x name, m at level 100, k at level 200).
Notation "m ;; k" := (bind m (fun _ => k))
  (at level 100, k at level 200, right associativity).

Definition get_world : M world := fun w => (Ok w, w, []).
Definition put_world (w' : world) : M unit := fun _ => (Ok tt, w', []).
Definition emit (e : event) : M unit := fun w => (Ok tt, w, [e]).

Definition res {A} (o : result A * world * list event) : result A := o.1.1.
Definition final {A} (o : result A * world * list event) : world := o.1.2.
Definition events {A} (o : result A * world * list event) : list event := o.2.

(** *** Primitives of the run-time library *)

Definition print (m : message) : M unit := emit (EvPrint false m).
Definition print_stderr (m : message) : M unit := emit (EvPrint true m).

Definition set_fs (f : gmap string node) (w : world) : world :=
  {| environ := environ w; stdin := stdin w; cwd := cwd w; fs := f;
     year := year w |}.

Definition set_stdin (s : option stream) (w : world) : world :=
  {| environ := environ w; stdin := s; cwd := cwd w; fs := fs w;
     year := year w |}.

Definition set_environ (e : gmap string string) (w : world) : world :=
  {| environ := e; stdin := stdin w; cwd := cwd w; fs := fs w;
     year := year w |}.

(** [os.environ.setdefault(k, v)] *)
Definition environ_setdefault (k v : string) : M unit :=
  let* w := get_world in
  match environ w !! k with
  | Some _ => ret tt
  | None => put_world (set_environ (<[k := v]> (environ w)) w)
  end.

(** [Path(p).exists()] *)
Definition path_exists (p : string) : M bool :=
  let* w := get_world in
  ret (bool_decide (is_Some (fs w !! p))).

(** [Path(p).mkdir(parents=True, exist_ok=True)] for a path of one
    component: nothing to do for a directory, an error for a file. *)
Definition mkdir_p (p : string) : M unit :=
  let* w := get_world in
  match fs w !! p with
  | Some Dir => emit (EvMkdir p)
  | Some (File _) => emit (EvMkdir p) ;; raise (FileExistsError p)
  | None => emit (EvMkdir p) ;; put_world (set_fs (<[p := Dir]> (fs w)) w)
  end.

(** [Path(p).write_text(c)]: the parent must be a directory. *)
Definition write_failed {A} (p : string) (e : exn) : M A :=
  emit (EvWriteFailed p e) ;; raise e.

Definition write_text (p : string) (c : content) : M unit :=
  let* w := get_world in
  match fs w !! Path.parent p with
  | Some Dir =>
      match fs w !! p with
      | Some Dir => write_failed p (IsADirectoryError p)
      | _ => emit (EvWrite p c) ;;
             put_world (set_fs (<[p := File c]> (fs w)) w)
      end
  | Some (File _) => write_failed p (NotADirectoryError p)
  | None => write_failed p (FileNotFoundError p)
  end.

(** [sys.stdin.read()] on a pipe: all the data that is left. *)
Definition stdin_read (data : str) : M str :=
  let* w := get_world in
  put_world (set_stdin (Some (Pipe [])) w) ;;
  ret data.

(** [input(prompt)]: the next line of [sys.stdin] without its line feed. *)
Definition input (prompt : string) : M str :=
  print (Text prompt) ;;
  let* w := get_world in
  match stdin w with
  | None => raise (RuntimeError "input(): lost sys.stdin")
  | Some (Tty []) => raise EOFError
  | Some (Tty (r :: rest)) =>
      put_world (set_stdin (Some (Tty rest)) w) ;;
      match r with
      | Line s => ret (split_line s).1
      | CtrlD => raise EOFError
      | CtrlC => raise KeyboardInterrupt
      end
  | Some (Pipe []) => raise EOFError
  | Some (Pipe (c :: d)) =>
      let line := split_line (c :: d) in
      put_world (set_stdin (Some (Pipe line.2)) w) ;;
      ret line.1
  end.

(** Fallible code without effects. *)
Definition rbind {A B} (r : result A) (k : A -> result B) : result B :=
  match r with
  | Ok a => k a
  | Raise e => Raise e
  end.

Fixpoint rmap {A B} (f : A -> result B) (l : list A) : result (list B) :=
  match l with
  | [] => Ok []
  | x :: r =>
      rbind (f x) (fun y => rbind (rmap f r) (fun ys => Ok (y :: ys)))
  end.

(** First value bound to [k] in an association list. *)
Fixpoint assoc {A} (k : string) (l : list (string * A)) : option A :=
  match l with
  | [] => None
  | (k', v) :: r => if String.eqb k k' then Some v else assoc k r
  end.

(** [o or d] for an optional [str]: [None] and the empty string are false. *)
Definition or_default (o : option str) (d : str) : str :=
  match o with
  | Some s => if truthy s then s else d
  | None => d
  end.

(* ===================================================================== *)
(** ** crew.py *)
(* ===================================================================== *)

Module Agent.
Record t := mk {
  config : dict;
  verbose : bool;
  allow_delegation : option bool;      (* [None]: keyword not given *)
  allow_code_execution : bool;
  code_execution_mode : string;
  max_execution_time : Z;
  max_retry_limit : Z;
  callbacks : list string;
  tags : list string;
  seed : Z;
}.
End Agent.

Module Task.
Record t := mk {
  config : dict;
  verbose : bool;
  output_file : string;
  allow_code_execution : bool;
  code_execution_mode : string;
  max_execution_time : Z;
  max_retry_limit : Z;
  enforce_json_schema : bool;
  retry_on_schema_fail : bool;
  callbacks : list string;
  context : list (string * string);
}.
End Task.

Inductive Process := sequential | hierarchical.

Module Crew.
Record t := mk {
  agents : list (string * Agent.t);
  tasks : list (string * Task.t);
  process : Process;
  manager_agent : Agent.t;
  verbose : bool;
}.
End Crew.

(** [_ensure_dir(path)] *)
Definition _ensure_dir (path : string) : M unit :=
  let* e := path_exists path in
  if negb e then mkdir_p path else ret tt.

(** [key in cfg] *)
Definition py_in (key : string) (cfg : yaml) : result bool :=
  match cfg with
  | YDict d => Ok (bool_decide (is_Some (d !! key)))
  | YStr s => Ok (bool_decide (is_Some (String.index 0 key s)))
  | YList l =>
      Ok (existsb (fun y => match y with
                            | YStr s => String.eqb s key
                            | _ => false
                            end) l)
  | YNull | YBool _ | YNum _ => Raise (TypeError "argument is not iterable")
  end.

(** [cfg[key]] for a [str] key. *)
Definition py_getitem (cfg : yaml) (key : string) : result yaml :=
  match cfg with
  | YDict d =>
      match d !! key with
      | Some v => Ok v
      | None => Raise (KeyError key)
      end
  | YStr _ => Raise (TypeError "string indices must be integers")
  | YList _ => Raise (TypeError "list indices must be integers or slices")
  | YNull | YBool _ | YNum _ => Raise (TypeError "object is not subscriptable")
  end.

Definition is_dict (v : yaml) : bool :=
  match v with
  | YDict _ => true
  | _ => false
  end.

Definition missing_msg (kind key : string) : string :=
  "Missing " +:+ kind +:+ " config for '" +:+ key +:+ "'. Check your YAML.".

(** [_get(cfg, key, kind)] *)
Definition _get (cfg : yaml) (key kind : string) : result dict :=
  rbind (py_in key cfg) (fun present =>
  if negb present then Raise (KeyError (missing_msg kind key))
  else
    rbind (py_getitem cfg key) (fun v =>
    match v with
    | YDict d => Ok d
    | _ => Raise (KeyError (missing_msg kind key))
    end)).

(** An instance of [WebsiteCreator]: the two attributes [CrewBase] fills. *)
Record WebsiteCreator := {
  agents_config : yaml;
  tasks_config : yaml;
}.

(** The class attributes: where [CrewBase] looks for the YAML files. *)
Definition agents_config_path : string := "config/agents.yaml".
Definition tasks_config_path : string := "config/tasks.yaml".

(** *** Agents *)

Definition planner (self : WebsiteCreator) : result Agent.t :=
  rbind (_get (agents_config self) "planner" "agent") (fun cfg =>
  Ok (Agent.mk cfg true None false "safe" 180 2 []
        ["planner"; "requirements"] 7)).

Definition team_leader (self : WebsiteCreator) : result Agent.t :=
  rbind (_get (agents_config self) "team_leader" "agent") (fun cfg =>
  Ok (Agent.mk cfg true (Some true) false "safe" 240 2 []
        ["leader"; "router"] 7)).

Definition frontend_developer (self : WebsiteCreator) : result Agent.t :=
  rbind (_get (agents_config self) "frontend_developer" "agent") (fun cfg =>
  Ok (Agent.mk cfg true None true "safe" 600 3 []
        ["frontend"; "ui"; "gradio"] 7)).

Definition backend_developer (self : WebsiteCreator) : result Agent.t :=
  rbind (_get (agents_config self) "backend_developer" "agent") (fun cfg =>
  Ok (Agent.mk cfg true None true "safe" 600 3 []
        ["backend"; "api"; "db"] 7)).

Definition integrator (self : WebsiteCreator) : result Agent.t :=
  rbind (_get (agents_config self) "integrator" "agent") (fun cfg =>
  Ok (Agent.mk cfg true None false "safe" 300 2 []
        ["integrator"; "devops"; "merge"] 7)).

Definition tester (self : WebsiteCreator) : result Agent.t :=
  rbind (_get (agents_config self) "tester" "agent") (fun cfg =>
  Ok (Agent.mk cfg true None false "safe" 180 2 []
        ["qa"; "tester"; "e2e"] 7)).

Definition evaluator (self : WebsiteCreator) : result Agent.t :=
  rbind (_get (agents_config self) "evaluator" "agent") (fun cfg =>
  Ok (Agent.mk cfg true None false "safe" 180 2 []
        ["evaluator"; "review"; "quality"] 7)).

Definition repository_manager (self : WebsiteCreator) : result Agent.t :=
  rbind (_get (agents_config self) "repository_manager" "agent") (fun cfg =>
  Ok (Agent.mk cfg true None false "safe" 300 2 []
        ["repo"; "consistency"; "packaging"] 7)).

(** *** Tasks *)

Definition planner_task (self : WebsiteCreator) : result Task.t :=
  rbind (_get (tasks_config self) "planner_task" "task") (fun cfg =>
  Ok (Task.mk cfg true "artifacts/planner.json" false "safe" 180 2
        true true []
        [("customer_request", "{customer_request}")])).

Definition team_leader_task (self : WebsiteCreator) : result Task.t :=
  rbind (_get (tasks_config self) "team_leader_task" "task") (fun cfg =>
  Ok (Task.mk cfg true "artifacts/blueprint.md" false "safe" 180 2
        false false []
        [("planner_output", "planner_task.output");
         ("website_name", "{website_name}")])).

Definition frontend_developer_task (self : WebsiteCreator) : result Task.t :=
  rbind (_get (tasks_config self) "frontend_developer_task" "task") (fun cfg =>
  Ok (Task.mk cfg true "artifacts/frontend.json" true "safe" 600 3
        true true []
        [("planner_output", "planner_task.output");
         ("leader_blueprint", "team_leader_task.output");
         ("ui_framework", "gradio")])).

Definition backend_developer_task (self : WebsiteCreator) : result Task.t :=
  rbind (_get (tasks_config self) "backend_developer_task" "task") (fun cfg =>
  Ok (Task.mk cfg true "artifacts/backend.json" true "safe" 600 3
        true true []
        [("planner_output", "planner_task.output");
         ("leader_blueprint", "team_leader_task.output");
         ("shared_classes", "frontend_developer_task.output.shared_classes")])).

Definition integration_task (self : WebsiteCreator) : result Task.t :=
  rbind (_get (tasks_config self) "integration_task" "task") (fun cfg =>
  Ok (Task.mk cfg true "artifacts/integration.json" false "safe" 360 2
        true true []
        [("frontend_artifact", "frontend_developer_task.output");
         ("backend_artifact", "backend_developer_task.output");
         ("planner_output", "planner_task.output")])).

Definition repository_management_task (self : WebsiteCreator)
  : result Task.t :=
  rbind (_get (tasks_config self) "repository_management_task" "task")
    (fun cfg =>
  Ok (Task.mk cfg true "artifacts/repository.json" false "safe" 240 2
        true true []
        [("integration_output", "integration_task.output");
         ("website_folder", "website")])).

Definition testing_task (self : WebsiteCreator) : result Task.t :=
  rbind (_get (tasks_config self) "testing_task" "task") (fun cfg =>
  Ok (Task.mk cfg true "artifacts/test_report.json" false "safe" 300 2
        true true []
        [("features", "planner_task.output.features");
         ("final_directory",
          "repository_management_task.output.final_directory");
         ("launch_cmd", "python app.py")])).

Definition evaluation_task (self : WebsiteCreator) : result Task.t :=
  rbind (_get (tasks_config self) "evaluation_task" "task") (fun cfg =>
  Ok (Task.mk cfg true "artifacts/evaluation.json" false "safe" 180 2
        true true []
        [("customer_request", "{customer_request}");
         ("test_report", "testing_task.output");
         ("repo_summary", "repository_management_task.output")])).

(** The methods decorated with [@agent] and [@task], in the order of the
    class body. *)
Definition agent_methods : list (string * (WebsiteCreator -> result Agent.t)) :=
  [("planner", planner); ("team_leader", team_leader);
   ("frontend_developer", frontend_developer);
   ("backend_developer", backend_developer);
   ("integrator", integrator); ("tester", tester);
   ("evaluator", evaluator); ("repository_manager", repository_manager)].

Definition task_methods : list (string * (WebsiteCreator -> result Task.t)) :=
  [("planner_task", planner_task); ("team_leader_task", team_leader_task);
   ("frontend_developer_task", frontend_developer_task);
   ("backend_developer_task", backend_developer_task);
   ("integration_task", integration_task);
   ("repository_management_task", repository_management_task);
   ("testing_task", testing_task); ("evaluation_task", evaluation_task)].

(** The lists given to the [@crew] decorator. *)
Definition crew_agents : list string :=
  ["planner"; "team_leader"; "frontend_developer"; "backend_developer";
   "integrator"; "repository_manager"; "tester"; "evaluator"].

Definition crew_tasks : list string :=
  ["planner_task"; "team_leader_task"; "frontend_developer_task";
   "backend_developer_task"; "integration_task";
   "repository_management_task"; "testing_task"; "evaluation_task"].

(** The registry the source expects from [CrewBase] ([self.agents],
    [self.tasks]): the declared names in order, each with the object its
    method builds. *)
Definition registry {A} (methods : list (string * (WebsiteCreator -> result A)))
    (names : list string) (self : WebsiteCreator)
  : result (list (string * A)) :=
  rmap (fun n =>
          match assoc n methods with
          | Some build => rbind (build self) (fun a => Ok (n, a))
          | None => Raise (AttributeError n)
          end) names.

Definition self_agents := registry agent_methods crew_agents.
Definition self_tasks := registry task_methods crew_tasks.

(** [WebsiteCreator.crew]: the manager is looked up first, then the
    keyword arguments of [Crew(...)] are evaluated in order. *)
Definition crew (self : WebsiteCreator) : result Crew.t :=
  rbind (self_agents self) (fun ags =>
  rbind (match assoc "team_leader" ags with
         | Some a => Ok a
         | None => Raise (KeyError "team_leader")
         end) (fun manager =>
  rbind (self_tasks self) (fun tks =>
  Ok (Crew.mk ags tks hierarchical manager true)))).

(** What lies outside the repository. *)
Record env := {
  (** the YAML loader of [CrewBase], from a path to the loaded value *)
  load_yaml : string -> result yaml;
  (** a run of the crew on an input bag: the tasks that completed, each by
      its position in [Crew.tasks] and with its raw output, oldest first,
      and then the result of [kickoff] or the exception it raises *)
  crew_behaviour :
    Crew.t -> list (string * str) -> list (nat * str) * result json;
}.

(** [WebsiteCreator()]: [CrewBase] runs the class's own [__init__], which
    ensures the artifacts directory, and then loads the two YAML files. *)
Definition WebsiteCreator_init : M unit := _ensure_dir "artifacts".

Definition WebsiteCreator_new (E : env) : M WebsiteCreator :=
  WebsiteCreator_init ;;
  let* a := lift (load_yaml E agents_config_path) in
  let* t := lift (load_yaml E tasks_config_path) in
  ret {| agents_config := a; tasks_config := t |}.

(** A completed task writes its raw output to its [output_file]. *)
Fixpoint write_outputs (c : Crew.t) (steps : list (nat * str)) : M unit :=
  match steps with
  | [] => ret tt
  | (i, raw) :: r =>
      match Crew.tasks c !! i with
      | Some (_, t) => write_text (Task.output_file t) (TaskOutput raw)
      | None => ret tt
      end ;;
      write_outputs c r
  end.

(** [Crew.kickoff(inputs=...)] *)
Definition kickoff (E : env) (c : Crew.t) (inputs : list (string * str))
  : M json :=
  emit (EvKickoff inputs) ;;
  let '(steps, outcome) := crew_behaviour E c inputs in
  write_outputs c steps ;;
  lift outcome.

Definition placeholder : str := lit "Generated Website".

(** [WebsiteCreator.run] *)
Definition run (E : env) (self : WebsiteCreator) (customer_request : str)
    (website_name : option str) : M json :=
  let inputs := [("customer_request", customer_request);
                 ("website_name", or_default website_name placeholder)] in
  let* c := lift (crew self) in
  kickoff E c inputs.

(* ===================================================================== *)
(** ** main.py *)
(* ===================================================================== *)

Definition ARTIFACTS_DIR : string := "artifacts".

(** [_ensure_artifacts_dir()] *)
Definition _ensure_artifacts_dir : M unit := mkdir_p ARTIFACTS_DIR.

(** [_stdin_text()] *)
Definition _stdin_text : M str :=
  let* w := get_world in
  match stdin w with
  | Some (Pipe data) =>
      let* d := stdin_read data in
      ret (strip (replace_crlf d))
  | Some (Tty _) | None => ret []
  end.

(** The line feed, for the literals that hold one. *)
Definition nl : string := String "010"%char EmptyString.

(** [_ask_customer_request()] *)
Definition _ask_customer_request : M str :=
  print (Text "🛠  Website Builder") ;;
  print (Text "Describe the website you want (features, purpose, audience, etc.).") ;;
  print (Text ("Press Enter when you're done:" +:+ nl)) ;;
  try_except
    (let* s := input "> " in ret (strip s))
    (fun e =>
       match e with
       | EOFError | KeyboardInterrupt => ret []
       | _ => raise e
       end).

(** [str(n)] for an integer. *)
Definition str_of_int (n : Z) : str :=
  lit (NilZero.string_of_int (Z.to_int n)).

(** [_build_inputs(customer_request)] *)
Definition _build_inputs (customer_request : str) : M (list (string * str)) :=
  let* w := get_world in
  ret [("customer_request", customer_request);
       ("current_year", str_of_int (year w))].

(** [_validate_crewai_yaml_loaded(wc)] *)
Definition _validate_crewai_yaml_loaded (wc : WebsiteCreator) : M unit :=
  if negb (is_dict (agents_config wc)) then
    raise (RuntimeError
      "agents_config not loaded. Ensure 'config/agents.yaml' exists and CrewBase path is correct.")
  else if negb (is_dict (tasks_config wc)) then
    raise (RuntimeError
      "tasks_config not loaded. Ensure 'config/tasks.yaml' exists and CrewBase path is correct.")
  else ret tt.

Definition summary_path : string := Path.join ARTIFACTS_DIR "run_summary.json".

(** [_persist_run_summary(payload)] *)
Definition _persist_run_summary (payload : json) : M string :=
  let path := summary_path in
  write_text path (JsonText 2 false payload) ;;
  ret path.

(** The namespace [parse_args] returns. *)
Module Namespace.
Record t := mk {
  customer_request : option str;
  website_name : option str;
  json : bool;
  no_prompt : bool;
}.
End Namespace.

(** [resolve_customer_request(args)] *)
Definition resolve_customer_request (args : Namespace.t) : M str :=
  let after_flag :=
    let* piped := _stdin_text in
    if truthy piped then ret piped
    else if Namespace.no_prompt args then ret []
    else _ask_customer_request in
  match Namespace.customer_request args with
  | Some r =>
      if truthy r && truthy (strip r) then ret (strip r) else after_flag
  | None => after_flag
  end.

(** [hasattr(wc, "run") and callable(getattr(wc, "run"))]: the class
    defines the method. *)
Definition has_run (wc : WebsiteCreator) : bool := true.

(** [str(ARTIFACTS_DIR.resolve())] *)
Definition resolve (w : world) (p : string) : string :=
  if String.eqb (cwd w) "/" then "/" +:+ p else Path.join (cwd w) p.

Definition common_artifacts : list string :=
  ["planner.json"; "blueprint.md"; "frontend.json"; "backend.json";
   "integration.json"; "repository.json"; "test_report.json";
   "evaluation.json"].

(** The closing loop of [main]: the artifact files that exist. *)
Fixpoint list_artifacts (names : list string) : M unit :=
  match names with
  | [] => ret tt
  | fname :: r =>
      let fp := Path.join ARTIFACTS_DIR fname in
      let* e := path_exists fp in
      (if e then print (FileLine fp) else ret tt) ;;
      list_artifacts r
  end.

Definition err_payload (e : exn) (customer_request : str) : json :=
  JObj [("ok", JBool false);
        ("error", JErr e);
        ("customer_request", JStr customer_request)].

Definition summary (w : world) (args : Namespace.t) (customer_request : str)
    (result : json) : json :=
  JObj [("ok", JBool true);
        ("customer_request", JStr customer_request);
        ("website_name",
         JStr (or_default (Namespace.website_name args) placeholder));
        ("artifacts_dir", JStr (lit (resolve w ARTIFACTS_DIR)));
        ("result", result)].

(** The [except] clauses of [main], tried in order: the exit code, or the
    exception again when no clause catches it. *)
Definition handlers (customer_request : str) (e : exn) : M (json + Z) :=
  match e with
  | KeyboardInterrupt =>
      print_stderr (Text (nl +:+ "Interrupted by user.")) ;;
      ret (inr 130%Z)
  | _ =>
      if is_Exception e then
        _persist_run_summary (err_payload e customer_request) ;;
        print_stderr (ErrorLine e) ;;
        ret (inr 1%Z)
      else raise e
  end.

(** The [try] statement of [main]: the crew's result, or the exit code a
    handler returns. *)
Definition run_crew (E : env) (args : Namespace.t) (wc : WebsiteCreator)
    (customer_request : str) (inputs : list (string * str))
  : M (json + Z) :=
  try_except
    (let* result :=
       (if has_run wc then
          run E wc customer_request (Namespace.website_name args)
        else
          let* c := lift (crew wc) in
          let kickoff_inputs :=
            inputs ++
            [("website_name",
              or_default (Namespace.website_name args) placeholder)] in
          kickoff E c kickoff_inputs) in
     ret (inl result))
    (handlers customer_request).

(** [main(argv)], from the parsed arguments on. *)
Definition main (E : env) (args : Namespace.t) : M Z :=
  environ_setdefault "PYTHONUTF8" "1" ;;
  _ensure_artifacts_dir ;;
  let* customer_request := resolve_customer_request args in
  if negb (truthy customer_request) then
    print_stderr (Text
      "No website description provided. Use -r/--customer-request or pipe via stdin.") ;;
    ret 2%Z
  else
    let* inputs := _build_inputs customer_request in
    let* wc := WebsiteCreator_new E in
    _validate_crewai_yaml_loaded wc ;;
    let* r := run_crew E args wc customer_request inputs in
    match r with
    | inr code => ret code
    | inl result =>
        let* w := get_world in
        let s := summary w args customer_request result in
        let* path := _persist_run_summary s in
        (if Namespace.json args then print (JsonLine s)
         else
           print (Text "✅ Crew finished.") ;;
           print (ArtifactsLine path) ;;
           list_artifacts common_artifacts) ;;
        ret 0%Z
    end.

(* ===================================================================== *)
(** ** Observations on a run and sample inputs *)
(* ===================================================================== *)


(** A write of the run summary. *)
Definition is_summary_write (e : event) : bool :=
  match e with
  | EvWrite p _ => String.eqb p summary_path
  | _ => false
  end.

Definition writes_summary (evs : list event) : bool :=
  existsb is_summary_write evs.

(** A write that found no directory to write into. *)
Definition is_dirless_write (e : event) : bool :=
  match e with
  | EvWriteFailed _ (FileNotFoundError _)
  | EvWriteFailed _ (NotADirectoryError _) => true
  | _ => false
  end.

Definition is_write (e : event) : bool :=
  match e with
  | EvWrite _ _ | EvWriteFailed _ _ => true
  | _ => false
  end.


(** What the three sources of the request hold, taken one by one. *)
Definition flag_source (args : Namespace.t) : option str :=
  match Namespace.customer_request args with
  | Some r => if truthy (strip r) then Some (strip r) else None
  | None => None
  end.

Definition stdin_source (w : world) : option str :=
  match stdin w with
  | Some (Pipe data) =>
      if truthy (strip (replace_crlf data))
      then Some (strip (replace_crlf data)) else None
  | _ => None
  end.

(** The state once [_stdin_text] has run: a pipe is drained. *)
Definition drained (w : world) : world :=
  match stdin w with
  | Some (Pipe _) => set_stdin (Some (Pipe [])) w
  | _ => w
  end.

(** What the user answers at the prompt, from the state of [sys.stdin]
    when the prompt is shown. *)
Definition prompt_answer (s : option stream) : result str :=
  match s with
  | None => Raise (RuntimeError "input(): lost sys.stdin")
  | Some (Tty (Line l :: _)) => Ok (strip (split_line l).1)
  | Some (Tty _) => Ok []
  | Some (Pipe []) => Ok []
  | Some (Pipe (c :: d)) => Ok (strip (split_line (c :: d)).1)
  end.

(** The request as the specification words it: the flag, else the piped
    text, else nothing under [--no-prompt], else the answer at the prompt. *)
Definition spec_request (args : Namespace.t) (w : world) : result str :=
  match flag_source args with
  | Some s => Ok s
  | None =>
      match stdin_source w with
      | Some s => Ok s
      | None =>
          if Namespace.no_prompt args then Ok []
          else prompt_answer (stdin (drained w))
      end
  end.



(** The name used for the site. *)
Definition effective_name (args : Namespace.t) : str :=
  or_default (Namespace.website_name args) placeholder.

Definition set_year (y : Z) (w : world) : world :=
  {| environ := environ w; stdin := stdin w; cwd := cwd w; fs := fs w;
     year := y |}.

(** The first two statements of [main]. *)
Definition startup : M unit :=
  environ_setdefault "PYTHONUTF8" "1" ;;
  _ensure_artifacts_dir.

(** The artifacts directory is there. *)
Definition has_dir (w : world) : Prop := fs w !! ARTIFACTS_DIR = Some Dir.

(** The artifacts directory is there and the summary can be written. *)
Definition writable (w : world) : Prop :=
  fs w !! ARTIFACTS_DIR = Some Dir /\ fs w !! summary_path <> Some Dir.

(** A write goes into the artifacts directory, and finds it. *)
Definition write_in_dir (e : event) : Prop :=
  match e with
  | EvWrite p _ => Path.parent p = ARTIFACTS_DIR
  | EvWriteFailed p x =>
      Path.parent p = ARTIFACTS_DIR /\
      is_dirless_write (EvWriteFailed p x) = false
  | _ => True
  end.




(** [m] keeps the invariant [I] of the state, and all its events
    satisfy [P]. *)
Definition keeps {A} (I : world -> Prop) (P : event -> Prop) (m : M A) : Prop :=
  forall w, I w -> I (final (m w)) /\ Forall P (events (m w)).

(** The entry for [n] is absent, or is not a dictionary. *)
Definition bad_entry (d : dict) (n : string) : Prop :=
  d !! n = None \/ exists v, d !! n = Some v /\ is_dict v = false.

(** The sink of a declared task: a file of the artifacts directory, with
    extension [json] exactly when a schema is enforced, and [md] if not. *)
Definition sink_ok (x : string * (string * bool * list (string * string)))
  : Prop :=
  let '(_, (o, e, _)) := x in
  Path.parent o = ARTIFACTS_DIR /\
  (Path.suffix o = Some "json" <-> e = true) /\
  (e = false -> Path.suffix o = Some "md").


(** [m] does not look at the clock: started in another year it does the
    same, and leaves the year as it found it. *)
Definition clockless {A} (m : M A) : Prop :=
  forall y w,
    m (set_year y w) = (res (m w), set_year y (final (m w)), events (m w)).


Definition no_state (w : world) : Prop := True.



(** [main] after the [try] statement. *)
Definition after_try (args : Namespace.t) (customer_request : str)
    (r : json + Z) : M Z :=
  match r with
  | inr code => ret code
  | inl result =>
      let* w := get_world in
      let s := summary w args customer_request result in
      let* path := _persist_run_summary s in
      (if Namespace.json args then print (JsonLine s)
       else
         print (Text "✅ Crew finished.") ;;
         print (ArtifactsLine path) ;;
         list_artifacts common_artifacts) ;;
      ret 0%Z
  end.

(** [main] once a request is there. *)
Definition main_body (E : env) (args : Namespace.t) (customer_request : str)
  : M Z :=
  let* inputs := _build_inputs customer_request in
  let* wc := WebsiteCreator_new E in
  _validate_crewai_yaml_loaded wc ;;
  let* r := run_crew E args wc customer_request inputs in
  after_try args customer_request r.




(** What [main] does once the directory is there. *)
Definition main_rest (E : env) (args : Namespace.t) : M Z :=
  let* cr := resolve_customer_request args in
  if negb (truthy cr) then
    print_stderr (Text
      "No website description provided. Use -r/--customer-request or pipe via stdin.") ;;
    ret 2%Z
  else main_body E args cr.

(** The part of a task that does not come from the configuration: where
    its output goes, whether a schema is enforced, and its context. *)
Definition task_static (t : Task.t)
  : string * bool * list (string * string) :=
  (Task.output_file t, Task.enforce_json_schema t, Task.context t).

Definition statics (tks : list (string * Task.t))
  : list (string * (string * bool * list (string * string))) :=
  map (fun nt => (nt.1, task_static nt.2)) tks.

(** A reference [<task-id>.output] or [<task-id>.output.<subfield>]:
    the task id and the rest of the path. *)
Fixpoint split_dots (s : string) : list string :=
  match s with
  | EmptyString => [EmptyString]
  | String c r =>
      if Ascii.eqb c "."%char then EmptyString :: split_dots r
      else
        match split_dots r with
        | h :: t => String c h :: t
        | [] => [String c EmptyString]
        end
  end.

Definition parse_ref (s : string) : option (string * list string) :=
  match split_dots s with
  | tid :: out :: rest =>
      if String.eqb out "output" then Some (tid, rest) else None
  | _ => None
  end.

(** The task ids a context refers to. *)
Fixpoint refs (ctx : list (string * string)) : list string :=
  match ctx with
  | [] => []
  | (_, v) :: r =>
      match parse_ref v with
      | Some (tid, _) => tid :: refs r
      | None => refs r
      end
  end.

(** Every reference of every task names one of the tasks declared before
    it. *)
Fixpoint refs_backwards (earlier : list string)
    (l : list (string * (string * bool * list (string * string)))) : bool :=
  match l with
  | [] => true
  | (n, (_, _, ctx)) :: r =>
      forallb (fun tid => existsb (String.eqb tid) earlier) (refs ctx)
      && refs_backwards (earlier ++ [n]) r
  end.

(** Task [i] refers to the output of task [j]. *)
Definition depends (tks : list (string * Task.t)) (i j : nat) : Prop :=
  exists n t m u, tks !! i = Some (n, t) /\ tks !! j = Some (m, u) /\
    In m (refs (Task.context t)).

(** *** Sample inputs *)

(** A configuration with an empty entry for each of the given ids. *)
Definition cfg_for (names : list string) : yaml :=
  YDict (list_to_map (map (fun n => (n, YDict ∅)) names)).

Definition sample_wc : WebsiteCreator :=
  {| agents_config := cfg_for crew_agents;
     tasks_config := cfg_for crew_tasks |}.

Definition sample_loader (p : string) : result yaml :=
  if String.eqb p agents_config_path then Ok (cfg_for crew_agents)
  else Ok (cfg_for crew_tasks).

(** A crew that completes its first two tasks and returns. *)
Definition env_ok : env :=
  {| load_yaml := sample_loader;
     crew_behaviour := fun _ _ =>
       ([(0, lit "{}"); (1, lit "# plan")], Ok (JOpaque 0)) |}.

(** The same crew, when the YAML files hold empty dictionaries. *)
Definition env_empty_config : env :=
  {| load_yaml := fun _ => Ok (YDict ∅);
     crew_behaviour := fun _ _ =>
       ([(0, lit "{}"); (1, lit "# plan")], Ok (JOpaque 0)) |}.

(** The start of a crew. *)
Definition is_kickoff (e : event) : bool :=
  match e with
  | EvKickoff _ => true
  | _ => false
  end.

(** A crew that fails in its first task. *)
Definition env_fail : env :=
  {| load_yaml := sample_loader;
     crew_behaviour := fun _ _ =>
       ([], Raise (LibraryError "ValueError" (lit "no model"))) |}.

(** A crew interrupted by the user after its first task. *)
Definition env_interrupt : env :=
  {| load_yaml := sample_loader;
     crew_behaviour := fun _ _ =>
       ([(0, lit "{}")], Raise KeyboardInterrupt) |}.

(** A terminal with the given replies, in an empty directory. *)
Definition world_tty (replies : list reply) (y : Z) : world :=
  World ∅ (Some (Tty replies)) "/home/user/site" ∅ y.

(** A pipe holding [data], in an empty directory. *)
Definition world_pipe (data : str) : world :=
  World ∅ (Some (Pipe data)) "/home/user/site" ∅ 2026.

(** The declared tasks, without their configuration. *)
Definition task_table
  : list (string * (string * bool * list (string * string))) :=
  Eval vm_compute in
    match self_tasks sample_wc with
    | Ok tks => statics tks
    | Raise _ => []
    end.

(** The files the declared tasks write. *)
Definition task_files : list string := map (fun x => x.2.1.1) task_table.

Definition empty_wc : WebsiteCreator :=
  {| agents_config := YDict ∅; tasks_config := YDict ∅ |}.

Definition sample_tasks : list (string * Task.t) :=
  Eval vm_compute in
    match self_tasks sample_wc with
    | Ok tks => tks
    | Raise _ => []
    end.

Definition args_flag (r : str) : Namespace.t :=
  Namespace.mk (Some r) None false false.

Definition args_none (no_prompt : bool) : Namespace.t :=
  Namespace.mk None None false no_prompt.

Definition args_named (r name : str) : Namespace.t :=
  Namespace.mk (Some r) (Some name) false true.

(* ===================================================================== *)
(** ** Further observations *)
(* ===================================================================== *)



(** ["\r\r\n" in s] *)
Fixpoint has_crcrlf (s : str) : bool :=
  match s with
  | [] => false
  | c :: r =>
      match r with
      | d :: e :: _ =>
          ((c =? CR)%N && (d =? CR)%N && (e =? LF)%N) || has_crcrlf r
      | _ => false
      end
  end.

(** Only white space. *)
Definition blank (s : str) : Prop := Forall (fun c => isspace c = true) s.


(** The lines the closing loop of [main] prints in the state [w]: one for
    each of the names that exists in the artifacts directory. *)
Definition listed (names : list string) (w : world) : list event :=
  map (fun n => EvPrint false (FileLine (Path.join ARTIFACTS_DIR n)))
    (List.filter
       (fun n => bool_decide (is_Some (fs w !! Path.join ARTIFACTS_DIR n)))
       names).

(** A line on the standard error. *)
Definition is_stderr (e : event) : bool :=
  match e with
  | EvPrint true _ => true
  | _ => false
  end.










(* ===================================================================== *)
(** * Properties *)
(* ===================================================================== *)

Arguments set_fs : simpl never.
Arguments set_stdin : simpl never.
Arguments set_environ : simpl never.
Arguments split_line : simpl never.

(** ** Stripping *)

Section Strip.

Lemma lstrip_suffix (s : str) : exists u, s = u ++ lstrip s.
Proof.
  induction s as [|c r [u Hu]]; simpl.
  - exists []. reflexivity.
  - destruct (isspace c).
    + exists (c :: u). simpl. congruence.
    + exists []. reflexivity.
Qed.

Lemma lstrip_head (s : str) c r : lstrip s = c :: r -> isspace c = false.
Proof.
  induction s as [|d t IH]; simpl; [discriminate|].
  destruct (isspace d) eqn:Hd; [exact IH|].
  intros [= <- _]. exact Hd.
Qed.

Lemma rstrip_prefix (s : str) : exists u, s = rstrip s ++ u.
Proof.
  unfold rstrip. destruct (lstrip_suffix (rev s)) as [u Hu].
  exists (rev u).
  rewrite <- rev_app_distr, <- Hu, rev_involutive. reflexivity.
Qed.

Lemma rstrip_last (s : str) r c : rstrip s = r ++ [c] -> isspace c = false.
Proof.
  unfold rstrip. intros H.
  apply (f_equal (@rev _)) in H.
  rewrite rev_involutive, rev_app_distr in H. simpl in H.
  exact (lstrip_head _ _ _ H).
Qed.

Lemma strip_trimmed (s : str) : trimmed (strip s).
Proof.
  split.
  - intros c r H. unfold strip in H.
    destruct (rstrip_prefix (lstrip s)) as [u Hu].
    rewrite H in Hu. simpl in Hu.
    exact (lstrip_head _ _ _ Hu).
  - intros r c H. exact (rstrip_last _ _ _ H).
Qed.

Lemma nil_trimmed : trimmed [].
Proof.
  split; intros a b H.
  - discriminate H.
  - destruct a; discriminate H.
Qed.

Lemma strip_nil : strip [] = [].
Proof. reflexivity. Qed.

Lemma truthy_strip (r : str) : truthy r && truthy (strip r) = truthy (strip r).
Proof. destruct r; reflexivity. Qed.

Lemma truthy_false (s : str) : truthy s = false -> s = [].
Proof. destruct s; [reflexivity | discriminate]. Qed.

End Strip.

(** ** Running computations *)

Section Running.

Context {A B : Type}.

Lemma bind_ok (m : M A) (k : A -> M B) w a w1 ev1 :
  m w = (Ok a, w1, ev1) ->
  bind m k w = (res (k a w1), final (k a w1), ev1 ++ events (k a w1)).
Proof.
  intros H. unfold bind. rewrite H.
  destruct (k a w1) as [[r w2] ev2]. reflexivity.
Qed.

Lemma bind_raise (m : M A) (k : A -> M B) w e w1 ev1 :
  m w = (Raise e, w1, ev1) -> bind m k w = (Raise e, w1, ev1).
Proof. intros H. unfold bind. rewrite H. reflexivity. Qed.

Lemma bind_pure (m : M A) (k : A -> M B) w a :
  m w = (Ok a, w, []) -> bind m k w = k a w.
Proof.
  intros H. unfold bind. rewrite H.
  destruct (k a w) as [[r w2] ev2]. reflexivity.
Qed.

Lemma outcome_eta (o : result A * world * list event) :
  o = (res o, final o, events o).
Proof. destruct o as [[r w] ev]. reflexivity. Qed.

End Running.

(** ** Resolving the request *)

Lemma _stdin_text_run (w : world) :
  _stdin_text w =
  (Ok (match stdin w with
       | Some (Pipe d) => strip (replace_crlf d)
       | _ => []
       end), drained w, []).
Proof.
  unfold _stdin_text, drained.
  destruct w as [en [[p|d]|] cw f y]; reflexivity.
Qed.

Lemma _stdin_text_source (w : world) :
  match stdin_source w with
  | Some s => _stdin_text w = (Ok s, drained w, []) /\ truthy s = true
  | None => exists s, _stdin_text w = (Ok s, drained w, []) /\ truthy s = false
  end.
Proof.
  rewrite _stdin_text_run. unfold stdin_source.
  destruct (stdin w) as [[p|d]|].
  - exists []. split; reflexivity.
  - destruct (truthy (strip (replace_crlf d))) eqn:Ht.
    + split; [reflexivity | exact Ht].
    + exists (strip (replace_crlf d)). split; [reflexivity | exact Ht].
  - exists []. split; reflexivity.
Qed.

(** The resolver, source by source, with the state it leaves. *)
Lemma resolve_run (args : Namespace.t) (w : world) :
  resolve_customer_request args w =
  match flag_source args with
  | Some s => (Ok s, w, [])
  | None =>
      match stdin_source w with
      | Some s => (Ok s, drained w, [])
      | None =>
          if Namespace.no_prompt args then (Ok [], drained w, [])
          else _ask_customer_request (drained w)
      end
  end.
Proof.
  assert (Hrest :
    (let* piped := _stdin_text in
     if truthy piped then ret piped
     else if Namespace.no_prompt args then ret []
     else _ask_customer_request) w =
    match stdin_source w with
    | Some s => (Ok s, drained w, [])
    | None =>
        if Namespace.no_prompt args then (Ok [], drained w, [])
        else _ask_customer_request (drained w)
    end).
  { pose proof (_stdin_text_source w) as Hs.
    destruct (stdin_source w) as [s|].
    - destruct Hs as [Hs Ht]. rewrite (bind_ok _ _ _ _ _ _ Hs), Ht.
      reflexivity.
    - destruct Hs as [s [Hs Ht]]. rewrite (bind_ok _ _ _ _ _ _ Hs), Ht.
      destruct (Namespace.no_prompt args); simpl.
      + reflexivity.
      + symmetry. apply outcome_eta. }
  unfold resolve_customer_request, flag_source.
  destruct (Namespace.customer_request args) as [r|]; [|exact Hrest].
  rewrite truthy_strip.
  destruct (truthy (strip r)); [reflexivity | exact Hrest].
Qed.

Lemma ask_answer (w : world) :
  res (_ask_customer_request w) = prompt_answer (stdin w).
Proof.
  unfold _ask_customer_request, input, try_except, bind, print, emit,
    get_world.
  destruct w as [en [[[|[l| |] rest]|[|c d]]|] cw f y]; reflexivity.
Qed.

Lemma resolve_spec (args : Namespace.t) (w : world) :
  res (resolve_customer_request args w) = spec_request args w.
Proof.
  rewrite resolve_run. unfold spec_request.
  destruct (flag_source args); [reflexivity|].
  destruct (stdin_source w); [reflexivity|].
  destruct (Namespace.no_prompt args); [reflexivity | apply ask_answer].
Qed.

(** ** The declared agents and tasks *)

Ltac unfold_registry :=
  cbv [self_tasks self_agents registry crew_tasks crew_agents rmap
       task_methods agent_methods assoc String.eqb Ascii.eqb Bool.eqb
       planner_task team_leader_task frontend_developer_task
       backend_developer_task integration_task repository_management_task
       testing_task evaluation_task
       planner team_leader frontend_developer backend_developer
       integrator tester evaluator repository_manager rbind].

Ltac split_gets :=
  repeat match goal with
         | |- context [_get ?c ?k ?kind] =>
             destruct (_get c k kind); try discriminate
         end.

Lemma self_tasks_statics self tks :
  self_tasks self = Ok tks -> statics tks = task_table.
Proof.
  unfold_registry. split_gets. intros [= <-]. reflexivity.
Qed.

Lemma self_agents_names self ags :
  self_agents self = Ok ags -> map fst ags = crew_agents.
Proof.
  unfold_registry. split_gets. intros [= <-]. reflexivity.
Qed.

Lemma self_tasks_names self tks :
  self_tasks self = Ok tks -> map fst tks = crew_tasks.
Proof.
  intros H. apply self_tasks_statics in H.
  apply (f_equal (map fst)) in H. unfold statics in H.
  rewrite map_map in H. exact H.
Qed.

Lemma crew_tasks_of self c :
  crew self = Ok c -> self_tasks self = Ok (Crew.tasks c).
Proof.
  unfold crew, rbind.
  destruct (self_agents self) as [ags|]; [|discriminate].
  destruct (assoc "team_leader" ags); [|discriminate].
  destruct (self_tasks self) as [tks|]; [|discriminate].
  intros [= <-]. reflexivity.
Qed.

Lemma sample_tasks_ok : exists tks, self_tasks sample_wc = Ok tks.
Proof. vm_compute. eexists. reflexivity. Qed.


Lemma statics_lookup tks i n t :
  tks !! i = Some (n, t) -> statics tks !! i = Some (n, task_static t).
Proof.
  intros H. unfold statics. rewrite list_lookup_fmap, H. reflexivity.
Qed.

Lemma crew_task_file wc c i n t :
  crew wc = Ok c -> Crew.tasks c !! i = Some (n, t) ->
  In (Task.output_file t) task_files.
Proof.
  intros Hc Hi. apply crew_tasks_of, self_tasks_statics in Hc.
  apply statics_lookup in Hi. rewrite Hc in Hi.
  apply list_elem_of_lookup_2, list_elem_of_In in Hi.
  apply (in_map (fun x => x.2.1.1) task_table _ Hi).
Qed.

(** ** Invariants of the state and of the events *)

Section Keeps.

Variable I : world -> Prop.
Variable P : event -> Prop.

Lemma keeps_ret {A} (a : A) : keeps I P (ret a).
Proof. intros w Hw. split; [exact Hw | constructor]. Qed.

Lemma keeps_raise {A} (e : exn) : keeps I P (@raise A e).
Proof. intros w Hw. split; [exact Hw | constructor]. Qed.

Lemma keeps_lift {A} (r : result A) : keeps I P (lift r).
Proof. destruct r; [apply keeps_ret | apply keeps_raise]. Qed.

Lemma keeps_get_world : keeps I P get_world.
Proof. intros w Hw. split; [exact Hw | constructor]. Qed.

Lemma keeps_emit (e : event) : P e -> keeps I P (emit e).
Proof. intros He w Hw. split; [exact Hw | repeat constructor; exact He]. Qed.

Lemma keeps_bind {A B} (m : M A) (k : A -> M B) :
  keeps I P m -> (forall a, keeps I P (k a)) -> keeps I P (bind m k).
Proof.
  intros Hm Hk w Hw. destruct (Hm w Hw) as [H1 H2].
  unfold bind. destruct (m w) as [[[a|e] w1] ev1]; simpl in *.
  - destruct (Hk a w1 H1) as [H3 H4].
    destruct (k a w1) as [[r w2] ev2]; simpl in *.
    split; [exact H3 | apply Forall_app; split; assumption].
  - split; assumption.
Qed.

Lemma keeps_try {A} (m : M A) (h : exn -> M A) :
  keeps I P m -> (forall e, keeps I P (h e)) -> keeps I P (try_except m h).
Proof.
  intros Hm Hh w Hw. destruct (Hm w Hw) as [H1 H2].
  unfold try_except. destruct (m w) as [[[a|e] w1] ev1]; simpl in *.
  - split; assumption.
  - destruct (Hh e w1 H1) as [H3 H4].
    destruct (h e w1) as [[r w2] ev2]; simpl in *.
    split; [exact H3 | apply Forall_app; split; assumption].
Qed.

Lemma keeps_if {A} (b : bool) (m1 m2 : M A) :
  keeps I P m1 -> keeps I P m2 -> keeps I P (if b then m1 else m2).
Proof. destruct b; tauto. Qed.

(** What the invariant and the event predicate must allow. *)
Hypothesis I_environ : forall w e, I w -> I (set_environ e w).
Hypothesis I_stdin : forall w s, I w -> I (set_stdin s w).
Hypothesis P_print : forall b m, P (EvPrint b m).

Lemma keeps_print (m : message) : keeps I P (print m).
Proof. apply keeps_emit, P_print. Qed.

Lemma keeps_print_stderr (m : message) : keeps I P (print_stderr m).
Proof. apply keeps_emit, P_print. Qed.


Lemma keeps_path_exists p : keeps I P (path_exists p).
Proof. intros w Hw. split; [exact Hw | constructor]. Qed.

Lemma keeps_stdin_read d : keeps I P (stdin_read d).
Proof.
  intros w Hw. split; [apply I_stdin; exact Hw | constructor].
Qed.

Lemma keeps_input prompt : keeps I P (input prompt).
Proof.
  intros w Hw. unfold input, bind, print, emit, get_world.
  destruct (stdin w) as [[[|[s| |] rest]|[|c d]]|];
    unfold final, events; simpl;
    (split; [auto | repeat constructor; apply P_print]).
Qed.

Lemma keeps__stdin_text : keeps I P _stdin_text.
Proof.
  intros w Hw. rewrite _stdin_text_run. unfold final, events. simpl.
  split; [|constructor].
  unfold drained. destruct (stdin w) as [[|]|]; auto.
Qed.

Lemma keeps__ask_customer_request : keeps I P _ask_customer_request.
Proof.
  unfold _ask_customer_request.
  repeat (apply keeps_bind; [apply keeps_print | intros _]).
  apply keeps_try.
  - apply keeps_bind; [apply keeps_input | intros s; apply keeps_ret].
  - intros e. destruct e; auto using keeps_ret, keeps_raise.
Qed.

Lemma keeps_resolve args : keeps I P (resolve_customer_request args).
Proof.
  assert (Hrest : keeps I P
    (let* piped := _stdin_text in
     if truthy piped then ret piped
     else if Namespace.no_prompt args then ret []
     else _ask_customer_request)).
  { apply keeps_bind; [apply keeps__stdin_text | intros s].
    repeat apply keeps_if;
      auto using keeps_ret, keeps__ask_customer_request. }
  unfold resolve_customer_request.
  destruct (Namespace.customer_request args); [|exact Hrest].
  apply keeps_if; [apply keeps_ret | exact Hrest].
Qed.

Lemma keeps__build_inputs cr : keeps I P (_build_inputs cr).
Proof. intros w Hw. split; [exact Hw | constructor]. Qed.

Lemma keeps__validate wc : keeps I P (_validate_crewai_yaml_loaded wc).
Proof.
  unfold _validate_crewai_yaml_loaded.
  repeat apply keeps_if; auto using keeps_ret, keeps_raise.
Qed.

Lemma keeps_list_artifacts names : keeps I P (list_artifacts names).
Proof.
  induction names as [|n r IH]; simpl; [apply keeps_ret|].
  apply keeps_bind; [apply keeps_path_exists | intros e].
  apply keeps_bind; [|intros _; exact IH].
  apply keeps_if; [apply keeps_print | apply keeps_ret].
Qed.

(** The directory is made only where it is missing. *)
Hypothesis Dir_ok : keeps I P (mkdir_p ARTIFACTS_DIR).

Lemma keeps__ensure_dir : keeps I P (_ensure_dir "artifacts").
Proof.
  unfold _ensure_dir.
  apply keeps_bind; [apply keeps_path_exists | intros e].
  apply keeps_if; [exact Dir_ok | apply keeps_ret].
Qed.

Lemma keeps_WebsiteCreator_new E : keeps I P (WebsiteCreator_new E).
Proof.
  unfold WebsiteCreator_new, WebsiteCreator_init.
  apply keeps_bind; [apply keeps__ensure_dir | intros _].
  apply keeps_bind; [apply keeps_lift | intros a].
  apply keeps_bind; [apply keeps_lift | intros t].
  apply keeps_ret.
Qed.

(** Writes of the tasks' outputs. *)
Lemma keeps_write_outputs c steps :
  (forall i n t raw, Crew.tasks c !! i = Some (n, t) ->
     keeps I P (write_text (Task.output_file t) (TaskOutput raw))) ->
  keeps I P (write_outputs c steps).
Proof.
  intros Task_ok.
  induction steps as [|[i raw] r IH]; simpl; [apply keeps_ret|].
  apply keeps_bind; [|intros _; exact IH].
  destruct (Crew.tasks c !! i) as [[n t]|] eqn:Hi.
  - exact (Task_ok i n t raw Hi).
  - apply keeps_ret.
Qed.

Lemma keeps_kickoff E c inputs :
  P (EvKickoff inputs) ->
  (forall i n t raw, Crew.tasks c !! i = Some (n, t) ->
     keeps I P (write_text (Task.output_file t) (TaskOutput raw))) ->
  keeps I P (kickoff E c inputs).
Proof.
  intros Hk Task_ok. unfold kickoff.
  apply keeps_bind; [apply keeps_emit, Hk | intros _].
  destruct (crew_behaviour E c inputs) as [steps outcome].
  apply keeps_bind; [apply keeps_write_outputs, Task_ok | intros _].
  apply keeps_lift.
Qed.

(** The files of the declared tasks may be written. *)
Hypothesis Files_ok :
  forall p raw, In p task_files -> keeps I P (write_text p (TaskOutput raw)).

Lemma keeps_run E wc cr nm :
  P (EvKickoff [("customer_request", cr);
                ("website_name", or_default nm placeholder)]) ->
  keeps I P (run E wc cr nm).
Proof.
  intros Hk w Hw. unfold run.
  destruct (crew wc) as [c|e] eqn:Hc.
  - rewrite (bind_pure _ _ w c) by reflexivity.
    apply keeps_kickoff; [exact Hk | | exact Hw].
    intros i n t raw Hi. apply Files_ok.
    apply (crew_task_file wc c i n t Hc Hi).
  - rewrite (bind_raise _ _ w e w []) by reflexivity.
    split; [exact Hw | constructor].
Qed.

(** The run summary may be written. *)
Hypothesis Summary_ok :
  forall payload, P (EvWrite summary_path (JsonText 2 false payload)) ->
    keeps I P (_persist_run_summary payload).

Lemma keeps_handlers cr e :
  P (EvWrite summary_path (JsonText 2 false (err_payload e cr))) ->
  keeps I P (handlers cr e).
Proof.
  intros Herr.
  assert (Hp : keeps I P
    (_persist_run_summary (err_payload e cr) ;;
     print_stderr (ErrorLine e) ;; ret (inr 1%Z) : M (json + Z))).
  { apply keeps_bind; [apply Summary_ok, Herr | intros _].
    apply keeps_bind; [apply keeps_print_stderr | intros _].
    apply keeps_ret. }
  unfold handlers.
  destruct e; try exact Hp; try apply keeps_raise.
  apply keeps_bind; [apply keeps_print_stderr | intros _; apply keeps_ret].
Qed.

Lemma keeps_run_crew E args wc cr inputs :
  P (EvKickoff [("customer_request", cr);
                ("website_name", effective_name args)]) ->
  (forall e, P (EvWrite summary_path (JsonText 2 false (err_payload e cr)))) ->
  keeps I P (run_crew E args wc cr inputs).
Proof.
  intros Hk Herr. unfold run_crew, has_run.
  apply keeps_try.
  - apply keeps_bind; [apply keeps_run, Hk | intros j; apply keeps_ret].
  - intros e. apply keeps_handlers, Herr.
Qed.

Lemma keeps_after_try args cr r :
  (forall w j, P (EvWrite summary_path
                    (JsonText 2 false (summary w args cr j)))) ->
  keeps I P (after_try args cr r).
Proof.
  intros Hs. destruct r as [j|code]; unfold after_try; [|apply keeps_ret].
  apply keeps_bind; [apply keeps_get_world | intros w].
  apply keeps_bind; [apply Summary_ok, Hs | intros p].
  apply keeps_bind; [|intros _; apply keeps_ret].
  apply keeps_if; [apply keeps_print|].
  repeat (apply keeps_bind; [apply keeps_print | intros _]).
  apply keeps_list_artifacts.
Qed.

Lemma keeps_main_body E args cr :
  P (EvKickoff [("customer_request", cr);
                ("website_name", effective_name args)]) ->
  (forall e, P (EvWrite summary_path (JsonText 2 false (err_payload e cr)))) ->
  (forall w j, P (EvWrite summary_path
                    (JsonText 2 false (summary w args cr j)))) ->
  keeps I P (main_body E args cr).
Proof.
  intros Hk Herr Hs. unfold main_body.
  apply keeps_bind; [apply keeps__build_inputs | intros inputs].
  apply keeps_bind; [apply keeps_WebsiteCreator_new | intros wc].
  apply keeps_bind; [apply keeps__validate | intros _].
  apply keeps_bind; [apply keeps_run_crew; assumption | intros r].
  apply keeps_after_try, Hs.
Qed.



End Keeps.

(** ** C4: references point backwards *)

Lemma In_refs (ctx : list (string * string)) (tid : string) :
  In tid (refs ctx) <->
  exists k v rest, In (k, v) ctx /\ parse_ref v = Some (tid, rest).
Proof.
  induction ctx as [|[k v] r IH]; simpl.
  - split; [tauto | intros (k & v & rest & [] & _)].
  - destruct (parse_ref v) as [[t rest]|] eqn:Hp; simpl; rewrite IH; split.
    + intros [<- | (k' & v' & rest' & Hin & Hr)].
      * exists k, v, rest. auto.
      * exists k', v', rest'. auto.
    + intros (k' & v' & rest' & [[= <- <-] | Hin] & Hr).
      * left. congruence.
      * right. exists k', v', rest'. auto.
    + intros (k' & v' & rest' & Hin & Hr). exists k', v', rest'. auto.
    + intros (k' & v' & rest' & [[= <- <-] | Hin] & Hr).
      * congruence.
      * exists k', v', rest'. auto.
Qed.

Lemma refs_backwards_sound earlier l :
  refs_backwards earlier l = true ->
  forall i n o e ctx tid,
    l !! i = Some (n, (o, e, ctx)) -> In tid (refs ctx) ->
    In tid (earlier ++ take i (map fst l)).
Proof.
  revert earlier.
  induction l as [|[m [[o' e'] ctx']] r IH]; intros earlier H i n o e ctx tid Hi Hin.
  - destruct i; discriminate Hi.
  - simpl in H. apply andb_prop in H. destruct H as [H1 H2].
    destruct i as [|i]; simpl in Hi.
    + injection Hi as -> -> -> ->. simpl. rewrite app_nil_r.
      rewrite forallb_forall in H1. specialize (H1 tid Hin).
      apply existsb_exists in H1. destruct H1 as [x [Hx Heq]].
      apply String.eqb_eq in Heq. subst x. exact Hx.
    + specialize (IH _ H2 i n o e ctx tid Hi Hin).
      simpl. rewrite <- app_assoc in IH. exact IH.
Qed.

Lemma table_backwards : refs_backwards [] task_table = true.
Proof. vm_compute. reflexivity. Qed.

Lemma crew_tasks_NoDup : NoDup crew_tasks.
Proof. apply (bool_decide_unpack (NoDup crew_tasks)). vm_compute. exact I. Qed.

Lemma earlier_task self tks i n t tid :
  self_tasks self = Ok tks ->
  tks !! i = Some (n, t) -> In tid (refs (Task.context t)) ->
  exists j u, j < i /\ tks !! j = Some (tid, u).
Proof.
  intros Hs Hi Hin.
  pose proof (self_tasks_statics _ _ Hs) as Hst.
  pose proof (statics_lookup _ _ _ _ Hi) as Hl. rewrite Hst in Hl.
  pose proof (refs_backwards_sound [] task_table table_backwards
                i n _ _ _ tid Hl Hin) as H.
  rewrite app_nil_l, <- Hst in H.
  apply list_elem_of_In, list_elem_of_lookup in H. destruct H as [j Hj].
  apply lookup_take_Some in Hj. destruct Hj as [Hj Hlt].
  unfold statics in Hj. rewrite map_map in Hj.
  rewrite list_lookup_fmap in Hj.
  destruct (tks !! j) as [[m u]|] eqn:Hm; [|discriminate].
  simpl in Hj. injection Hj as ->.
  exists j, u. split; [exact Hlt | exact Hm].
Qed.

Lemma depends_lt self tks i j :
  self_tasks self = Ok tks -> depends tks i j -> j < i.
Proof.
  intros Hs (n & t & m & u & Hi & Hj & Hin).
  destruct (earlier_task _ _ _ _ _ _ Hs Hi Hin) as (j' & u' & Hlt & Hj').
  assert (j = j') as ->; [|exact Hlt].
  pose proof (self_tasks_names _ _ Hs) as Hn.
  pose proof crew_tasks_NoDup as Hnd. rewrite <- Hn in Hnd.
  eapply NoDup_lookup; [exact Hnd | |].
  - rewrite list_lookup_fmap, Hj. reflexivity.
  - rewrite list_lookup_fmap, Hj'. reflexivity.
Qed.

(** C4.  For the tasks of any instance, in declared order: a context value
    of the form [<task-id>.output] or [<task-id>.output.<subfield>] names a
    task declared strictly earlier, and the dependency relation has no
    cycle. *)
Theorem task_references_point_backwards self tks :
  self_tasks self = Ok tks ->
  (forall i n t k v tid rest,
     tks !! i = Some (n, t) -> In (k, v) (Task.context t) ->
     parse_ref v = Some (tid, rest) ->
     exists j u, j < i /\ tks !! j = Some (tid, u))
  /\ (forall i, ~ tc (depends tks) i i).
Proof.
  intros Hs. split.
  - intros i n t k v tid rest Hi Hin Hp.
    apply (earlier_task self tks i n t tid Hs Hi).
    apply In_refs. exists k, v, rest. auto.
  - assert (Hlt : forall i j, tc (depends tks) i j -> j < i).
    { intros i j H. induction H as [i j H | i j k H _ IH].
      - exact (depends_lt _ _ _ _ Hs H).
      - apply (depends_lt _ _ _ _ Hs) in H. lia. }
    intros i H. apply Hlt in H. lia.
Qed.

Lemma task_references_point_backwards_witness :
  self_tasks sample_wc = Ok sample_tasks /\
  ((forall i n t k v tid rest,
      sample_tasks !! i = Some (n, t) -> In (k, v) (Task.context t) ->
      parse_ref v = Some (tid, rest) ->
      exists j u, j < i /\ sample_tasks !! j = Some (tid, u))
   /\ (forall i, ~ tc (depends sample_tasks) i i)).
Proof.
  split.
  - vm_compute. reflexivity.
  - apply (task_references_point_backwards sample_wc sample_tasks).
    vm_compute. reflexivity.
Defined.

Example parse_ref_subfield :
  parse_ref "frontend_developer_task.output.shared_classes"
  = Some ("frontend_developer_task", ["shared_classes"]).
Proof. reflexivity. Qed.

Example parse_ref_parameter : parse_ref "{customer_request}" = None.
Proof. reflexivity. Qed.

Example parse_ref_command : parse_ref "python app.py" = None.
Proof. reflexivity. Qed.

Example sample_dependency : depends sample_tasks 3 2.
Proof.
  do 4 eexists. split; [reflexivity|]. split; [reflexivity|].
  vm_compute. auto.
Qed.

(** ** C7: output sinks *)

Lemma table_sinks : Forall sink_ok task_table.
Proof.
  unfold task_table.
  repeat (apply Forall_cons; split;
          [vm_compute; intuition (reflexivity || discriminate)|]).
  apply Forall_nil. exact I.
Qed.

Lemma persist_run (payload : json) (w : world) :
  fs w !! ARTIFACTS_DIR = Some Dir ->
  fs w !! summary_path <> Some Dir ->
  _persist_run_summary payload w =
  (Ok summary_path,
   set_fs (<[summary_path := File (JsonText 2 false payload)]> (fs w)) w,
   [EvWrite summary_path (JsonText 2 false payload)]).
Proof.
  intros Hd Hs. unfold _persist_run_summary, write_text, bind, get_world.
  change (Path.parent summary_path) with ARTIFACTS_DIR. rewrite Hd.
  destruct (fs w !! summary_path) as [[|c]|]; [congruence | |]; reflexivity.
Qed.

(** C7.  Every declared task writes to a file of the artifacts directory
    whose extension is [json] exactly when the task enforces a schema, and
    [md] otherwise; the run summary goes to [artifacts/run_summary.json]. *)
Theorem output_sinks self tks :
  self_tasks self = Ok tks ->
  (forall n t, In (n, t) tks ->
     Path.parent (Task.output_file t) = ARTIFACTS_DIR /\
     (Path.suffix (Task.output_file t) = Some "json"
      <-> Task.enforce_json_schema t = true) /\
     (Task.enforce_json_schema t = false ->
      Path.suffix (Task.output_file t) = Some "md"))
  /\ summary_path = "artifacts/run_summary.json"
  /\ (forall payload w,
        fs w !! ARTIFACTS_DIR = Some Dir ->
        fs w !! summary_path <> Some Dir ->
        res (_persist_run_summary payload w) = Ok "artifacts/run_summary.json"
        /\ fs (final (_persist_run_summary payload w))
             !! "artifacts/run_summary.json"
           = Some (File (JsonText 2 false payload))).
Proof.
  intros Hs. split; [|split].
  - intros n t Hin.
    pose proof (self_tasks_statics _ _ Hs) as Hst.
    pose proof table_sinks as Ht. rewrite <- Hst in Ht.
    rewrite Forall_forall in Ht.
    apply (Ht (n, task_static t)).
    apply list_elem_of_In. unfold statics.
    apply (in_map (fun nt => (nt.1, task_static nt.2)) tks (n, t) Hin).
  - reflexivity.
  - intros payload w Hd Hsum. rewrite (persist_run payload w Hd Hsum).
    split; [reflexivity|].
    unfold final; simpl. apply lookup_insert_eq.
Qed.

Lemma output_sinks_witness :
  (forall n t, In (n, t) sample_tasks ->
     Path.parent (Task.output_file t) = ARTIFACTS_DIR /\
     (Path.suffix (Task.output_file t) = Some "json"
      <-> Task.enforce_json_schema t = true) /\
     (Task.enforce_json_schema t = false ->
      Path.suffix (Task.output_file t) = Some "md"))
  /\ res (_persist_run_summary (JBool true)
            (final (_ensure_artifacts_dir (world_tty [] 2026))))
     = Ok "artifacts/run_summary.json".
Proof.
  assert (Hs : self_tasks sample_wc = Ok sample_tasks)
    by (vm_compute; reflexivity).
  destruct (output_sinks sample_wc sample_tasks Hs) as (H1 & _ & H3).
  split; [exact H1|].
  apply H3; vm_compute; [reflexivity | discriminate].
Defined.

(** ** C6: missing configuration *)

Lemma _get_dict (d : dict) (key kind : string) :
  _get (YDict d) key kind =
  match d !! key with
  | Some (YDict v) => Ok v
  | _ => Raise (KeyError (missing_msg kind key))
  end.
Proof.
  unfold _get, py_in, py_getitem, rbind.
  destruct (d !! key) as [v|] eqn:Hk.
  - rewrite bool_decide_eq_true_2 by eauto. simpl. destruct v; reflexivity.
  - rewrite bool_decide_eq_false_2 by (intros [v Hv]; discriminate).
    reflexivity.
Qed.

Lemma _get_bad (d : dict) (key kind : string) :
  bad_entry d key ->
  _get (YDict d) key kind = Raise (KeyError (missing_msg kind key)).
Proof.
  rewrite _get_dict. intros [-> | (v & -> & Hv)]; [reflexivity|].
  destruct v; (reflexivity || discriminate Hv).
Qed.

Lemma _get_raise (d : dict) (key kind : string) e :
  _get (YDict d) key kind = Raise e -> e = KeyError (missing_msg kind key).
Proof.
  rewrite _get_dict. destruct (d !! key) as [[]|]; congruence.
Qed.

Ltac bad_cases Hin Hb kind :=
  simpl in Hin;
  repeat (destruct Hin as [<- | Hin];
          [pose proof (_get_bad _ _ kind Hb); congruence|]);
  contradiction.

Lemma crew_fails_fast self da dt :
  agents_config self = YDict da -> tasks_config self = YDict dt ->
  (exists n, In n crew_agents /\ bad_entry da n) \/
  (exists n, In n crew_tasks /\ bad_entry dt n) ->
  exists kind n, crew self = Raise (KeyError (missing_msg kind n)).
Proof.
  intros Ha Ht Hbad. unfold crew. unfold_registry. rewrite Ha, Ht.
  repeat match goal with
         | |- context [_get (YDict ?d) ?k ?kind] =>
             let G := fresh "G" in
             destruct (_get (YDict d) k kind) eqn:G;
             [| apply _get_raise in G; subst; do 2 eexists; reflexivity]
         end.
  exfalso.
  destruct Hbad as [(n & Hin & Hb) | (n & Hin & Hb)].
  - bad_cases Hin Hb "agent".
  - bad_cases Hin Hb "task".
Qed.

(** C6.  A constructor whose id has no dictionary in the configuration
    raises [KeyError] with the message naming the kind and the id; and when
    any declared id is in that case, [run] raises such an error with no
    effect at all: the crew is never started. *)
Theorem missing_config_fails_fast :
  (forall self d n build,
     agents_config self = YDict d -> In (n, build) agent_methods ->
     bad_entry d n ->
     build self = Raise (KeyError (missing_msg "agent" n)))
  /\ (forall self d n build,
        tasks_config self = YDict d -> In (n, build) task_methods ->
        bad_entry d n ->
        build self = Raise (KeyError (missing_msg "task" n)))
  /\ (forall E self da dt cr nm w,
        agents_config self = YDict da -> tasks_config self = YDict dt ->
        (exists n, In n crew_agents /\ bad_entry da n) \/
        (exists n, In n crew_tasks /\ bad_entry dt n) ->
        exists kind n,
          run E self cr nm w = (Raise (KeyError (missing_msg kind n)), w, [])).
Proof.
  split; [|split].
  - intros self d n build Hc Hin Hb. simpl in Hin.
    repeat (destruct Hin as [[= <- <-] | Hin];
            [cbv [planner team_leader frontend_developer backend_developer
                  integrator tester evaluator repository_manager];
             rewrite Hc, (_get_bad _ _ _ Hb); reflexivity|]).
    contradiction.
  - intros self d n build Hc Hin Hb. simpl in Hin.
    repeat (destruct Hin as [[= <- <-] | Hin];
            [cbv [planner_task team_leader_task frontend_developer_task
                  backend_developer_task integration_task
                  repository_management_task testing_task evaluation_task];
             rewrite Hc, (_get_bad _ _ _ Hb); reflexivity|]).
    contradiction.
  - intros E self da dt cr nm w Ha Ht Hbad.
    destruct (crew_fails_fast self da dt Ha Ht Hbad) as (kind & n & Hc).
    exists kind, n. unfold run. rewrite Hc. reflexivity.
Qed.

Lemma missing_config_fails_fast_witness :
  planner empty_wc = Raise (KeyError (missing_msg "agent" "planner"))
  /\ evaluation_task empty_wc
     = Raise (KeyError (missing_msg "task" "evaluation_task"))
  /\ exists kind n,
       run env_ok empty_wc (lit "a blog") None (world_tty [] 2026)
       = (Raise (KeyError (missing_msg kind n)), world_tty [] 2026, []).
Proof.
  destruct missing_config_fails_fast as (H1 & H2 & H3).
  assert (Hbad : forall n, bad_entry (∅ : dict) n)
    by (intros n; left; apply lookup_empty).
  split; [|split].
  - apply (H1 empty_wc ∅ "planner" planner);
      [reflexivity | simpl; auto | apply Hbad].
  - apply (H2 empty_wc ∅ "evaluation_task" evaluation_task);
      [reflexivity | simpl; auto 10 | apply Hbad].
  - apply (H3 env_ok empty_wc ∅ ∅); [reflexivity | reflexivity |].
    left. exists "planner". split; [simpl; auto | apply Hbad].
Defined.

Example not_a_dictionary_fails :
  tester {| agents_config := YDict {[ "tester" := YStr "qa" ]};
            tasks_config := YDict ∅ |}
  = Raise (KeyError "Missing agent config for 'tester'. Check your YAML.").
Proof. vm_compute. reflexivity. Qed.

(** With empty configuration files [main] records the error and returns 1;
    the crew is not started and no task writes anything. *)
Example empty_config_run :
  let o := main env_empty_config (args_flag (lit "a blog"))
             (world_tty [] 2026) in
  res o = Ok 1%Z
  /\ existsb is_kickoff (events o) = false
  /\ filter (fun e => is_write e) (events o)
     = [EvWrite "artifacts/run_summary.json"
          (JsonText 2 false
             (err_payload
                (KeyError "Missing agent config for 'planner'. Check your YAML.")
                (lit "a blog")))].
Proof. vm_compute. repeat split. Qed.

(** ** Writing files *)

Lemma write_text_cases (p : string) (c : content) (w : world) :
  (fs w !! Path.parent p = Some Dir /\ fs w !! p <> Some Dir /\
   write_text p c w =
   (Ok tt, set_fs (<[p := File c]> (fs w)) w, [EvWrite p c]))
  \/ (exists e, write_text p c w = (Raise e, w, [EvWriteFailed p e]) /\
        (fs w !! Path.parent p = Some Dir -> fs w !! p = Some Dir) /\
        (fs w !! Path.parent p = Some Dir ->
         is_dirless_write (EvWriteFailed p e) = false)).
Proof.
  unfold write_text, write_failed, bind, get_world, emit, raise, put_world.
  destruct (fs w !! Path.parent p) as [[|c']|] eqn:Hd.
  - destruct (fs w !! p) as [[|c'']|] eqn:Hp.
    + right. eexists. split; [reflexivity|]. auto.
    + left. repeat split; congruence.
    + left. repeat split; congruence.
  - right. eexists. split; [reflexivity|]. split; discriminate.
  - right. eexists. split; [reflexivity|]. split; discriminate.
Qed.



Lemma startup_cases (w : world) :
  events (startup w) = [EvMkdir ARTIFACTS_DIR] /\
  ((exists c, fs w !! ARTIFACTS_DIR = Some (File c) /\
              res (startup w) = Raise (FileExistsError ARTIFACTS_DIR))
   \/ (res (startup w) = Ok tt /\
       has_dir (final (startup w)) /\
       (forall p, p <> ARTIFACTS_DIR ->
                  fs (final (startup w)) !! p = fs w !! p) /\
       stdin (final (startup w)) = stdin w /\
       cwd (final (startup w)) = cwd w /\
       year (final (startup w)) = year w)).
Proof.
  unfold startup, environ_setdefault, _ensure_artifacts_dir, mkdir_p, has_dir.
  unfold bind, get_world, put_world, emit, raise, ret.
  destruct (environ w !! "PYTHONUTF8"); simpl;
    (destruct (fs w !! ARTIFACTS_DIR) as [[|c]|] eqn:Hd; simpl;
     (split; [reflexivity|]);
     [ right; repeat split; auto
     | left; exists c; split; reflexivity
     | right; repeat split; auto;
       [ apply lookup_insert_eq
       | intros p Hp; apply lookup_insert_ne; congruence ] ]).
Qed.

Lemma bind_assoc {A B C} (m : M A) (f : A -> M B) (g : B -> M C) w :
  bind (bind m f) g w = bind m (fun a => bind (f a) g) w.
Proof.
  unfold bind. destruct (m w) as [[[a|e] w1] ev1]; [|reflexivity].
  destruct (f a w1) as [[[b|e] w2] ev2]; [|reflexivity].
  destruct (g b w2) as [[r w3] ev3]. rewrite app_assoc. reflexivity.
Qed.

Lemma main_startup E args w :
  main E args w = (startup ;; main_rest E args) w.
Proof. symmetry. exact (bind_assoc _ _ _ w). Qed.

(** ** C5: the directory is there before any write *)

Lemma task_files_in_dir p : In p task_files -> Path.parent p = ARTIFACTS_DIR.
Proof.
  intros H. vm_compute in H.
  repeat (destruct H as [<- | H]; [reflexivity|]). contradiction.
Qed.

Lemma write_keeps_dir p c :
  Path.parent p = ARTIFACTS_DIR -> keeps has_dir write_in_dir (write_text p c).
Proof.
  intros Hp w Hw. unfold has_dir in *.
  destruct (write_text_cases p c w) as [(Hd & Hs & Hr) | (e & Hr & Hd & Hx)];
    rewrite Hr; unfold final, events, set_fs; simpl.
  - split; [|repeat constructor; exact Hp].
    rewrite lookup_insert_ne; [exact Hw | congruence].
  - split; [exact Hw|]. repeat constructor; [exact Hp|].
    apply Hx. rewrite Hp. exact Hw.
Qed.

Lemma mkdir_keeps_dir : keeps has_dir write_in_dir (mkdir_p ARTIFACTS_DIR).
Proof.
  intros w Hw. unfold mkdir_p, bind, get_world. unfold has_dir in Hw.
  rewrite Hw. unfold final, events; simpl.
  split; [exact Hw | repeat constructor].
Qed.

Lemma persist_keeps_dir payload :
  keeps has_dir write_in_dir (_persist_run_summary payload).
Proof.
  unfold _persist_run_summary.
  apply keeps_bind; [|intros _; apply keeps_ret].
  apply write_keeps_dir. reflexivity.
Qed.

Lemma main_rest_keeps_dir E args :
  keeps has_dir write_in_dir (main_rest E args).
Proof.
  assert (Hprint : forall b m, write_in_dir (EvPrint b m)) by (intros; exact I).
  assert (Hb : forall cr, keeps has_dir write_in_dir (main_body E args cr)).
  { intros cr.
    refine (keeps_main_body has_dir write_in_dir Hprint mkdir_keeps_dir
              _ _ E args cr I _ _).
    - intros p raw Hp. apply write_keeps_dir, task_files_in_dir, Hp.
    - intros payload _. apply persist_keeps_dir.
    - intros e. reflexivity.
    - intros w j. reflexivity. }
  unfold main_rest.
  apply keeps_bind; [|intros cr].
  - refine (keeps_resolve has_dir write_in_dir _ Hprint args).
    intros w s Hw. exact Hw.
  - apply keeps_if; [|apply Hb].
    apply keeps_bind; [apply keeps_emit; exact I | intros _; apply keeps_ret].
Qed.

Lemma mkdir_absent p w :
  fs w !! p = None ->
  mkdir_p p w = (Ok tt, set_fs (<[p := Dir]> (fs w)) w, [EvMkdir p]).
Proof.
  intros H. unfold mkdir_p.
  rewrite (bind_pure get_world _ w w) by reflexivity.
  rewrite H. reflexivity.
Qed.

(** C5.  [_ensure_artifacts_dir] and the constructor of [WebsiteCreator]
    both make the artifacts directory when it is absent; [main] starts by
    making it, and every write of a run of [main], of a task's output or of
    the summary, goes into that directory and finds it there. *)
Theorem artifacts_dir_before_writes :
  (forall w, fs w !! ARTIFACTS_DIR = None ->
     res (_ensure_artifacts_dir w) = Ok tt /\
     has_dir (final (_ensure_artifacts_dir w)))
  /\ (forall w, fs w !! ARTIFACTS_DIR = None ->
        res (WebsiteCreator_init w) = Ok tt /\
        has_dir (final (WebsiteCreator_init w)))
  /\ (forall E args w,
        (exists evs, events (main E args w) = EvMkdir ARTIFACTS_DIR :: evs) /\
        Forall write_in_dir (events (main E args w))).
Proof.
  split; [|split].
  - intros w Hw. unfold _ensure_artifacts_dir.
    rewrite (mkdir_absent _ _ Hw).
    split; [reflexivity | apply lookup_insert_eq].
  - intros w Hw. unfold WebsiteCreator_init, _ensure_dir.
    rewrite (bind_pure (path_exists "artifacts") _ w false).
    + cbn [negb]. rewrite (mkdir_absent "artifacts" w Hw).
      split; [reflexivity | apply lookup_insert_eq].
    + unfold path_exists.
      rewrite (bind_pure get_world _ w w) by reflexivity.
      change "artifacts" with ARTIFACTS_DIR. rewrite Hw.
      reflexivity.
  - intros E args w. rewrite main_startup.
    destruct (startup_cases w) as [Hev Hcase].
    unfold bind. destruct (startup w) as [[[[]|e] w1] ev1] eqn:Hst;
      unfold events, res, final in *; simpl in *; subst ev1.
    + destruct Hcase as [(c & _ & Hc) | (_ & Hd & _)]; [discriminate|].
      destruct (main_rest_keeps_dir E args w1 Hd) as [_ Hall].
      destruct (main_rest E args w1) as [[r w2] ev2]; simpl in *.
      split; [eexists; reflexivity|].
      constructor; [exact I | exact Hall].
    + split; [eexists; reflexivity | repeat constructor].
Qed.

Lemma artifacts_dir_before_writes_witness :
  has_dir (final (_ensure_artifacts_dir (world_tty [] 2026)))
  /\ has_dir (final (WebsiteCreator_init (world_tty [] 2026)))
  /\ Forall write_in_dir
       (events (main env_ok (args_flag (lit "a blog")) (world_tty [] 2026))).
Proof.
  destruct artifacts_dir_before_writes as (H1 & H2 & H3).
  split; [|split].
  - apply H1. vm_compute. reflexivity.
  - apply H2. vm_compute. reflexivity.
  - apply H3.
Defined.

Example writes_of_a_run :
  filter (fun e => is_write e)
    (events (main env_ok (args_flag (lit "a blog")) (world_tty [] 2026)))
  = [EvWrite "artifacts/planner.json" (TaskOutput (lit "{}"));
     EvWrite "artifacts/blueprint.md" (TaskOutput (lit "# plan"));
     EvWrite "artifacts/run_summary.json"
       (JsonText 2 false
          (summary (world_tty [] 2026) (args_flag (lit "a blog"))
             (lit "a blog") (JOpaque 0)))].
Proof. vm_compute. reflexivity. Qed.

(** ** The try statement, case by case *)








(** ** C1: when the summary is written *)





Lemma task_files_not_summary p : In p task_files -> p <> summary_path.
Proof.
  intros H. vm_compute in H.
  repeat (destruct H as [<- | H]; [discriminate|]). contradiction.
Qed.
















Example interrupted_run_writes_no_summary :
  res (main env_interrupt (args_flag (lit "a blog")) (world_tty [] 2026))
  = Ok 130%Z /\
  writes_summary
    (events (main env_interrupt (args_flag (lit "a blog")) (world_tty [] 2026)))
  = false.
Proof. vm_compute. split; reflexivity. Qed.

Example failed_run_writes_summary :
  res (main env_fail (args_flag (lit "a blog")) (world_tty [] 2026))
  = Ok 1%Z /\
  writes_summary
    (events (main env_fail (args_flag (lit "a blog")) (world_tty [] 2026)))
  = true.
Proof. vm_compute. split; reflexivity. Qed.

(** A loader that leaves the path where the dictionary should be. *)
Example unloaded_config_writes_no_summary :
  let E := {| load_yaml := fun p => Ok (YStr p);
              crew_behaviour := crew_behaviour env_ok |} in
  res (main E (args_flag (lit "a blog")) (world_tty [] 2026))
  = Raise (RuntimeError
      "agents_config not loaded. Ensure 'config/agents.yaml' exists and CrewBase path is correct.")
  /\ writes_summary
       (events (main E (args_flag (lit "a blog")) (world_tty [] 2026)))
     = false.
Proof. vm_compute. split; reflexivity. Qed.

(** ** C8: the name of the site *)





Example given_name_is_used :
  In (EvKickoff [("customer_request", lit "a blog");
                 ("website_name", lit "Blogly")])
     (events (main env_ok (args_named (lit "a blog") (lit "Blogly"))
                (world_tty [] 2026))).
Proof. vm_compute. right. left. reflexivity. Qed.

(** ** C3: exit codes *)




Lemma writable_environ : forall w (e : gmap string string),
  writable w -> writable (set_environ e w).
Proof. intros w e H. exact H. Qed.












Lemma spec_request_stdin args w w' :
  stdin w = stdin w' -> spec_request args w = spec_request args w'.
Proof.
  intros H. unfold spec_request, stdin_source, drained. rewrite H.
  destruct (flag_source args); [reflexivity|].
  destruct (stdin w') as [[p|d]|] eqn:H'; rewrite ?H, ?H'; reflexivity.
Qed.

Lemma no_request_exit_2 E args w :
  (forall c, fs w !! ARTIFACTS_DIR <> Some (File c)) ->
  spec_request args w = Ok [] ->
  res (main E args w) = Ok 2%Z.
Proof.
  intros Hnf Hreq. rewrite main_startup.
  destruct (startup_cases w) as [_ [(c & Hc & _) | (Hr & _ & _ & Hst & _)]].
  { destruct (Hnf c Hc). }
  destruct (startup w) as [[r1 w1] ev1] eqn:H1.
  unfold res, final in Hr, Hst; simpl in Hr, Hst. subst r1.
  rewrite (bind_ok _ _ _ _ _ _ H1). unfold main_rest.
  pose proof (resolve_spec args w1) as Hs.
  rewrite (spec_request_stdin args w1 w Hst), Hreq in Hs.
  destruct (resolve_customer_request args w1) as [[r2 w2] ev2] eqn:H2.
  unfold res in Hs; simpl in Hs. subst r2.
  rewrite (bind_ok _ _ _ _ _ _ H2). reflexivity.
Qed.




(** ** C9: the clock *)

Section Clock.












Lemma clockless_stdin_read d : clockless (stdin_read d).
Proof. intros y w. reflexivity. Qed.















(** The [try] statement never uses the bag [_build_inputs] made. *)
Lemma run_crew_ignores_inputs E args wc cr inputs inputs' :
  run_crew E args wc cr inputs = run_crew E args wc cr inputs'.
Proof. reflexivity. Qed.




End Clock.



Example same_run_in_another_year :
  res (main env_ok (args_flag (lit "a blog")) (world_tty [] 2025)) =
  res (main env_ok (args_flag (lit "a blog")) (world_tty [] 2026)) /\
  events (main env_ok (args_flag (lit "a blog")) (world_tty [] 2025)) =
  events (main env_ok (args_flag (lit "a blog")) (world_tty [] 2026)).
Proof. vm_compute. split; reflexivity. Qed.

(** ** C2: the order of the sources *)

(** C2.  The request is the stripped flag when that is not blank, else the
    normalised piped text when there is some, else nothing under
    [--no-prompt], else the answer at the prompt; when the flag is used
    standard input is not read; and with no flag, no piped text and
    [--no-prompt], [main] returns 2. *)
Theorem request_priority E args w :
  res (resolve_customer_request args w) = spec_request args w
  /\ (forall s, flag_source args = Some s ->
        resolve_customer_request args w = (Ok s, w, []))
  /\ (flag_source args = None -> stdin_source w = None ->
      Namespace.no_prompt args = true ->
      (forall c, fs w !! ARTIFACTS_DIR <> Some (File c)) ->
      res (main E args w) = Ok 2%Z).
Proof.
  split; [apply resolve_spec|]. split.
  - intros s Hs. rewrite resolve_run, Hs. reflexivity.
  - intros Hf Hs Hn Hd. apply no_request_exit_2; [exact Hd|].
    unfold spec_request. rewrite Hf, Hs, Hn. reflexivity.
Qed.

Lemma request_priority_witness :
  resolve_customer_request (args_flag (lit " a blog ")) (world_pipe (lit "x"))
  = (Ok (lit "a blog"), world_pipe (lit "x"), [])
  /\ res (main env_ok (args_none true) (world_tty [] 2026)) = Ok 2%Z.
Proof.
  destruct (request_priority env_ok (args_flag (lit " a blog "))
              (world_pipe (lit "x"))) as (_ & H2 & _).
  destruct (request_priority env_ok (args_none true) (world_tty [] 2026))
    as (_ & _ & H3).
  split.
  - apply H2. vm_compute. reflexivity.
  - apply H3; try reflexivity. intros c. vm_compute. discriminate.
Defined.

Example piped_text_is_used :
  res (resolve_customer_request (args_none false)
         (world_pipe (lit "  a shop ")))
  = Ok (lit "a shop").
Proof. vm_compute. reflexivity. Qed.

Example blank_flag_falls_to_pipe :
  res (resolve_customer_request (args_flag (lit "   "))
         (world_pipe (lit "a shop")))
  = Ok (lit "a shop").
Proof. vm_compute. reflexivity. Qed.

Example prompt_is_last :
  res (resolve_customer_request (args_none false)
         (world_tty [Line (lit " a wiki ")] 2026))
  = Ok (lit "a wiki").
Proof. vm_compute. reflexivity. Qed.

(** ** C10: the shape of the request *)


(** The replacement is one pass: CR CR LF in piped text leaves CR LF. *)
Example pipe_can_keep_crlf :
  res (resolve_customer_request (args_none true)
         (world_pipe [97; 13; 13; 10; 98]%N))
  = Ok [97; 13; 10; 98]%N.
Proof. vm_compute. reflexivity. Qed.

Lemma spec_request_trimmed args w s :
  spec_request args w = Ok s -> trimmed s.
Proof.
  unfold spec_request, flag_source, stdin_source, prompt_answer.
  destruct (Namespace.customer_request args) as [r|].
  - destruct (truthy (strip r)); [intros [= <-]; apply strip_trimmed|].
    destruct (stdin w) as [[p|d]|] eqn:Hin.
    + destruct (Namespace.no_prompt args); [intros [= <-]; apply nil_trimmed|].
      unfold drained. rewrite Hin, Hin.
      destruct p as [|[l| |] rest]; intros [= <-];
        auto using nil_trimmed, strip_trimmed.
    + destruct (truthy (strip (replace_crlf d)));
        [intros [= <-]; apply strip_trimmed|].
      destruct (Namespace.no_prompt args); [intros [= <-]; apply nil_trimmed|].
      unfold drained. rewrite Hin. intros [= <-]. apply nil_trimmed.
    + destruct (Namespace.no_prompt args); [intros [= <-]; apply nil_trimmed|].
      unfold drained. rewrite Hin, Hin. discriminate.
  - destruct (stdin w) as [[p|d]|] eqn:Hin.
    + destruct (Namespace.no_prompt args); [intros [= <-]; apply nil_trimmed|].
      unfold drained. rewrite Hin, Hin.
      destruct p as [|[l| |] rest]; intros [= <-];
        auto using nil_trimmed, strip_trimmed.
    + destruct (truthy (strip (replace_crlf d)));
        [intros [= <-]; apply strip_trimmed|].
      destruct (Namespace.no_prompt args); [intros [= <-]; apply nil_trimmed|].
      unfold drained. rewrite Hin. intros [= <-]. apply nil_trimmed.
    + destruct (Namespace.no_prompt args); [intros [= <-]; apply nil_trimmed|].
      unfold drained. rewrite Hin, Hin. discriminate.
Qed.



(* ===================================================================== *)
(** * Further properties *)
(* ===================================================================== *)

(** ** Reading the configuration *)

(** X1.  [_get] returns [v] exactly when the configuration is a dictionary that
    binds the key to the dictionary [v]: it never returns for a
    configuration that is not a dictionary, for a missing key, or for a key
    bound to anything else. *)
Theorem _get_returns_the_entry (cfg : yaml) (key kind : string) (v : dict) :
  _get cfg key kind = Ok v <->
  exists d, cfg = YDict d /\ d !! key = Some (YDict v).
Proof.
  split.
  - destruct cfg as [| b | n | s | l | d]; try discriminate.
    + unfold _get, py_in, py_getitem, rbind.
      destruct (bool_decide _); discriminate.
    + unfold _get, py_in, py_getitem, rbind.
      destruct (existsb _ l); discriminate.
    + rewrite _get_dict. exists d. split; [reflexivity|].
      destruct (d !! key) as [[]|]; congruence.
  - intros (d & -> & Hd). rewrite _get_dict, Hd. reflexivity.
Qed.

Lemma _get_returns_the_entry_witness :
  _get (YDict {[ "planner" := YDict ∅ ]}) "planner" "agent" = Ok ∅
  /\ (exists d, YDict {[ "planner" := YDict ∅ ]} = YDict d
                /\ d !! "planner" = Some (YDict ∅)).
Proof.
  destruct (_get_returns_the_entry (YDict {[ "planner" := YDict ∅ ]})
              "planner" "agent" ∅) as [H1 H2].
  split.
  - apply H2. eexists. split; reflexivity.
  - apply H1. vm_compute. reflexivity.
Defined.










(** ** The text of the request *)

Lemma lstrip_blank_prefix (s : str) : exists u, s = u ++ lstrip s /\ blank u.
Proof.
  induction s as [|c r (u & Hu & Hb)]; simpl.
  - exists []. split; [reflexivity | constructor].
  - destruct (isspace c) eqn:Hc.
    + exists (c :: u). split; [simpl; congruence | constructor; assumption].
    + exists []. split; [reflexivity | constructor].
Qed.

Lemma blank_rev (s : str) : blank s -> blank (rev s).
Proof. unfold blank. intros H. apply Forall_rev. exact H. Qed.

Lemma strip_infix (s : str) :
  exists a b, s = a ++ strip s ++ b /\ blank a /\ blank b.
Proof.
  destruct (lstrip_blank_prefix s) as (a & Ha & Hba).
  destruct (lstrip_blank_prefix (rev (lstrip s))) as (u & Hu & Hbu).
  exists a, (rev u). split; [|split; [exact Hba | apply blank_rev, Hbu]].
  unfold strip, rstrip. rewrite <- rev_app_distr, <- Hu, rev_involutive.
  exact Ha.
Qed.

Lemma lstrip_id (s : str) :
  (forall c r, s = c :: r -> isspace c = false) -> lstrip s = s.
Proof.
  destruct s as [|c r]; [reflexivity|]. intros H. simpl.
  rewrite (H c r eq_refl). reflexivity.
Qed.

Lemma strip_id (s : str) : trimmed s -> strip s = s.
Proof.
  intros [Hl Hr]. unfold strip, rstrip. rewrite (lstrip_id s Hl).
  rewrite lstrip_id; [apply rev_involutive|].
  intros c r Hrev. apply (Hr (rev r) c).
  rewrite <- (rev_involutive s), Hrev. reflexivity.
Qed.

Lemma has_crlf_cons (c : char) (s : str) :
  has_crlf s = true -> has_crlf (c :: s) = true.
Proof.
  intros H. destruct s as [|d r]; [discriminate H|].
  cbn [has_crlf]. cbn [has_crlf] in H. rewrite H. apply orb_true_r.
Qed.

Lemma has_crlf_app_l (a s : str) :
  has_crlf s = true -> has_crlf (a ++ s) = true.
Proof.
  intros H. induction a as [|c a IH]; [exact H|].
  simpl app. apply has_crlf_cons, IH.
Qed.

Lemma has_crlf_app_r (s b : str) :
  has_crlf s = true -> has_crlf (s ++ b) = true.
Proof.
  induction s as [|c r IH]; [discriminate|].
  destruct r as [|d r']; [discriminate|].
  cbn [has_crlf app]. intros H. apply orb_true_iff in H.
  apply orb_true_iff. destruct H as [H | H]; [left; exact H|].
  right. apply IH. exact H.
Qed.

Lemma has_crlf_strip (s : str) :
  has_crlf (strip s) = true -> has_crlf s = true.
Proof.
  intros H. destruct (strip_infix s) as (a & b & Hs & _).
  rewrite Hs. apply has_crlf_app_l, has_crlf_app_r, H.
Qed.

Lemma replace_crlf_pair (r : str) :
  replace_crlf (CR :: LF :: r) = LF :: replace_crlf r.
Proof. reflexivity. Qed.

Lemma replace_crlf_other (c d : char) (r : str) :
  ((c =? CR)%N && (d =? LF)%N) = false ->
  replace_crlf (c :: d :: r) = c :: replace_crlf (d :: r).
Proof. intros H. cbn [replace_crlf]. rewrite H. reflexivity. Qed.

Lemma has_crlf_unfold (c d : char) (r : str) :
  has_crlf (c :: d :: r) = ((c =? CR)%N && (d =? LF)%N) || has_crlf (d :: r).
Proof. reflexivity. Qed.

Lemma has_crcrlf_unfold (c d e : char) (r : str) :
  has_crcrlf (c :: d :: e :: r)
  = ((c =? CR)%N && (d =? CR)%N && (e =? LF)%N) || has_crcrlf (d :: e :: r).
Proof. reflexivity. Qed.

Lemma has_crlf_replace_aux (n : nat) :
  forall s : str, length s <= n ->
    has_crlf (replace_crlf s) = has_crcrlf s.
Proof.
  induction n as [|n IH]; intros s Hn.
  - destruct s; [reflexivity | simpl in Hn; lia].
  - destruct s as [|c [|d r]]; [reflexivity | reflexivity |].
    simpl in Hn.
    destruct ((c =? CR)%N && (d =? LF)%N) eqn:Hcd.
    + apply andb_prop in Hcd. destruct Hcd as [Hc Hd].
      apply N.eqb_eq in Hc, Hd. subst c d.
      rewrite replace_crlf_pair.
      assert (Hr : has_crlf (replace_crlf r) = has_crcrlf r)
        by (apply IH; lia).
      transitivity (has_crlf (replace_crlf r)).
      * destruct (replace_crlf r); reflexivity.
      * rewrite Hr. destruct r as [|e [|f r']]; reflexivity.
    + rewrite (replace_crlf_other c d r Hcd).
      assert (Hr : has_crlf (replace_crlf (d :: r)) = has_crcrlf (d :: r))
        by (apply IH; simpl; lia).
      destruct r as [|e r'].
      * cbn. rewrite Hcd. reflexivity.
      * destruct ((d =? CR)%N && (e =? LF)%N) eqn:Hde.
        -- apply andb_prop in Hde. destruct Hde as [Hd He].
           apply N.eqb_eq in Hd, He. subst d e.
           rewrite replace_crlf_pair in *.
           rewrite has_crlf_unfold, Hr, has_crcrlf_unfold.
           rewrite !N.eqb_refl, !andb_true_r. reflexivity.
        -- rewrite (replace_crlf_other d e r' Hde) in *.
           rewrite has_crlf_unfold, Hr, has_crcrlf_unfold.
           f_equal.
           destruct (c =? CR)%N; [|reflexivity]. simpl in Hcd |- *.
           rewrite Hcd. simpl.
           destruct (d =? CR)%N; [|reflexivity]. simpl in Hde |- *.
           rewrite Hde. reflexivity.
Qed.

Lemma has_crlf_replace (s : str) :
  has_crlf (replace_crlf s) = has_crcrlf s.
Proof. apply (has_crlf_replace_aux (length s)). lia. Qed.



(** X6.  The text [_stdin_text] returns has no white space at either end; it is
    the piped data, CRLF replaced, less white space at the two ends only;
    and it holds a CRLF only if the data held CR CR LF. *)
Theorem piped_text_is_normalised (w : world) (s : str) :
  res (_stdin_text w) = Ok s ->
  trimmed s
  /\ (forall d, stdin w = Some (Pipe d) ->
        exists a b, replace_crlf d = a ++ s ++ b /\ blank a /\ blank b)
  /\ (has_crlf s = true ->
      exists d, stdin w = Some (Pipe d) /\ has_crcrlf d = true).
Proof.
  rewrite _stdin_text_run. unfold res; cbn [fst].
  destruct (stdin w) as [[p|d]|]; intros [= <-].
  - split; [apply nil_trimmed|]. split; [discriminate | discriminate].
  - split; [apply strip_trimmed|]. split.
    + intros d' [= <-]. apply strip_infix.
    + intros H. exists d. split; [reflexivity|].
      rewrite <- has_crlf_replace. apply has_crlf_strip, H.
  - split; [apply nil_trimmed|]. split; [discriminate | discriminate].
Qed.

Lemma piped_text_is_normalised_witness :
  trimmed (lit "a shop")
  /\ (exists a b, replace_crlf [32; 97; 13; 13; 10; 98; 10]%N
                  = a ++ [97; 13; 10; 98]%N ++ b /\ blank a /\ blank b)
  /\ (exists d, stdin (world_pipe [32; 97; 13; 13; 10; 98; 10]%N)
                = Some (Pipe d) /\ has_crcrlf d = true).
Proof.
  split; [|split].
  - apply (piped_text_is_normalised (world_pipe (lit " a shop "))).
    vm_compute. reflexivity.
  - apply (piped_text_is_normalised
             (world_pipe [32; 97; 13; 13; 10; 98; 10]%N) [97; 13; 10; 98]%N);
      vm_compute; reflexivity.
  - apply (piped_text_is_normalised
             (world_pipe [32; 97; 13; 13; 10; 98; 10]%N) [97; 13; 10; 98]%N);
      vm_compute; reflexivity.
Defined.

(** X7.  A request given with the flag that is not empty and has no white space
    at either end is resolved as it is, without reading standard input;
    so a resolved request, given again with the flag, resolves to itself,
    whatever the standard input. *)
Theorem resolved_request_resolves_to_itself
    (args args' : Namespace.t) (w w' : world) (s : str) :
  (Namespace.customer_request args' = Some s -> trimmed s -> s <> [] ->
   resolve_customer_request args' w' = (Ok s, w', []))
  /\ (res (resolve_customer_request args w) = Ok s -> s <> [] ->
      Namespace.customer_request args' = Some s ->
      resolve_customer_request args' w' = (Ok s, w', [])).
Proof.
  assert (H : Namespace.customer_request args' = Some s -> trimmed s ->
              s <> [] -> resolve_customer_request args' w' = (Ok s, w', [])).
  { intros Hf Ht Hn. rewrite resolve_run. unfold flag_source.
    rewrite Hf, (strip_id s Ht). destruct s; [congruence | reflexivity]. }
  split; [exact H|].
  intros Hr Hn Hf. apply H; [exact Hf | | exact Hn].
  rewrite resolve_spec in Hr. exact (spec_request_trimmed args w s Hr).
Qed.

Lemma resolved_request_resolves_to_itself_witness :
  resolve_customer_request (args_flag (lit "a blog")) (world_pipe (lit "x"))
  = (Ok (lit "a blog"), world_pipe (lit "x"), [])
  /\ resolve_customer_request (args_flag (lit "a shop")) (world_tty [] 2026)
     = (Ok (lit "a shop"), world_tty [] 2026, []).
Proof.
  split.
  - apply (proj1 (resolved_request_resolves_to_itself
                    (args_none true) (args_flag (lit "a blog"))
                    (world_tty [] 2026) (world_pipe (lit "x"))
                    (lit "a blog"))).
    + reflexivity.
    + exact (strip_trimmed (lit "a blog")).
    + discriminate.
  - apply (proj2 (resolved_request_resolves_to_itself
                    (args_none false) (args_flag (lit "a shop"))
                    (world_pipe (lit " a shop ")) (world_tty [] 2026)
                    (lit "a shop"))).
    + vm_compute. reflexivity.
    + discriminate.
    + reflexivity.
Defined.

(** X8.  When the flag is not blank, the resolved request is the flag's text
    less white space at its two ends: nothing inside it is changed. *)
Theorem flag_text_is_kept (args : Namespace.t) (w : world) (r s : str) :
  Namespace.customer_request args = Some r -> strip r <> [] ->
  res (resolve_customer_request args w) = Ok s ->
  exists a b, r = a ++ s ++ b /\ blank a /\ blank b.
Proof.
  intros Hf Hn Hr. rewrite resolve_run in Hr. unfold flag_source in Hr.
  rewrite Hf in Hr.
  destruct (strip r) as [|c t] eqn:Hs; [congruence|].
  cbn in Hr. injection Hr as <-. rewrite <- Hs. apply strip_infix.
Qed.

Lemma flag_text_is_kept_witness :
  exists a b, lit "  a  blog " = a ++ lit "a  blog" ++ b /\ blank a /\ blank b.
Proof.
  apply (flag_text_is_kept (args_flag (lit "  a  blog ")) (world_tty [] 2026)).
  - reflexivity.
  - vm_compute. discriminate.
  - vm_compute. reflexivity.
Defined.

(** ** The prompt *)




(** ** The artifacts directory and its files *)

Lemma path_exists_run p w :
  path_exists p w = (Ok (bool_decide (is_Some (fs w !! p))), w, []).
Proof. reflexivity. Qed.









Lemma list_artifacts_events names w :
  list_artifacts names w = (Ok tt, w, listed names w).
Proof.
  induction names as [|n r IH]; [reflexivity|].
  cbn [list_artifacts].
  rewrite (bind_pure _ _ w _ (path_exists_run (Path.join ARTIFACTS_DIR n) w)).
  unfold listed. cbn [List.filter].
  destruct (bool_decide (is_Some (fs w !! Path.join ARTIFACTS_DIR n))).
  - rewrite (bind_ok (print _) _ w tt w [EvPrint false (FileLine _)])
      by reflexivity.
    rewrite IH. reflexivity.
  - rewrite (bind_pure (ret tt) _ w tt) by reflexivity.
    rewrite IH. reflexivity.
Qed.

Lemma append_inj (d a b : string) : d +:+ a = d +:+ b -> a = b.
Proof.
  induction d as [|c d IH]; simpl; [auto|]. intros [= H]. auto.
Qed.

Lemma join_inj (d a b : string) : Path.join d a = Path.join d b -> a = b.
Proof.
  unfold Path.join. intros H. apply append_inj in H.
  apply append_inj in H. exact H.
Qed.

(** X12.  The closing loop of [main] prints, in the order of its list, one line
    for each of the names that exists in the artifacts directory and none
    for the others; it never raises and changes nothing. *)
Theorem closing_list_is_exact (names : list string) (w : world) :
  list_artifacts names w = (Ok tt, w, listed names w)
  /\ (forall n, In (EvPrint false (FileLine (Path.join ARTIFACTS_DIR n)))
               (events (list_artifacts names w))
             -> In n names /\ is_Some (fs w !! Path.join ARTIFACTS_DIR n)).
Proof.
  split; [apply list_artifacts_events|].
  intros n. rewrite list_artifacts_events. unfold events, listed; cbn [snd].
  rewrite in_map_iff. intros (m & Hm & Hin).
  apply filter_In in Hin. destruct Hin as [Hin Hex].
  assert (m = n) as ->.
  { apply (join_inj ARTIFACTS_DIR). congruence. }
  split; [exact Hin | apply bool_decide_eq_true in Hex; exact Hex].
Qed.

Lemma closing_list_is_exact_witness :
  In "planner.json" common_artifacts /\
  is_Some (fs (final (main env_ok (args_flag (lit "a blog"))
                        (world_tty [] 2026)))
             !! Path.join ARTIFACTS_DIR "planner.json").
Proof.
  apply (proj2 (closing_list_is_exact common_artifacts
                  (final (main env_ok (args_flag (lit "a blog"))
                            (world_tty [] 2026))))).
  vm_compute. left. reflexivity.
Defined.

(** X13.  The files the tasks write are, in order, the eight files the closing
    loop of [main] looks for; they are pairwise distinct and none of them
    is the run summary. *)
Theorem listed_files_are_the_task_files (self : WebsiteCreator)
    (tks : list (string * Task.t)) :
  self_tasks self = Ok tks ->
  map (fun nt => Task.output_file nt.2) tks
  = map (Path.join ARTIFACTS_DIR) common_artifacts
  /\ NoDup (map (fun nt => Task.output_file nt.2) tks)
  /\ ~ In summary_path (map (fun nt => Task.output_file nt.2) tks).
Proof.
  intros Hs. apply self_tasks_statics in Hs.
  assert (Hf : map (fun nt => Task.output_file nt.2) tks = task_files).
  { unfold task_files. rewrite <- Hs. unfold statics. rewrite map_map.
    reflexivity. }
  rewrite Hf. split; [reflexivity|]. split.
  - apply (bool_decide_unpack (NoDup task_files)). vm_compute. exact I.
  - intros H. exact (task_files_not_summary _ H eq_refl).
Qed.

Lemma listed_files_are_the_task_files_witness :
  map (fun nt => Task.output_file nt.2) sample_tasks
  = map (Path.join ARTIFACTS_DIR) common_artifacts.
Proof.
  apply (listed_files_are_the_task_files sample_wc sample_tasks).
  vm_compute. reflexivity.
Defined.

(** ** Runs of main *)
















Example silent_success :
  filter (fun e => is_stderr e)
    (events (main env_ok (args_flag (lit "a blog")) (world_tty [] 2026)))
  = [].
Proof. vm_compute. reflexivity. Qed.

Example one_line_on_failure :
  filter (fun e => is_stderr e)
    (events (main env_fail (args_flag (lit "a blog")) (world_tty [] 2026)))
  = [EvPrint true (ErrorLine (LibraryError "ValueError" (lit "no model")))].
Proof. vm_compute. reflexivity. Qed.









(** ** Standard input *)






(** ** What the summary holds *)






(** ** Starting the crew *)

Definition no_kickoff (e : event) : Prop := is_kickoff e = false.






Lemma no_kickoff_write p c :
  keeps no_state no_kickoff (write_text p c).
Proof.
  intros w _. split; [exact I|].
  destruct (write_text_cases p c w) as [(_ & _ & Hr) | (e & Hr & _)];
    rewrite Hr; repeat constructor.
Qed.



Lemma no_kickoff_persist payload :
  keeps no_state no_kickoff (_persist_run_summary payload).
Proof.
  unfold _persist_run_summary.
  apply keeps_bind; [apply no_kickoff_write | intros _; apply keeps_ret].
Qed.




